(** * ai-agent-communicate: profile store, response generation and parsing

    A shallow embedding of [src/models.py] and [src/main.py].

    - Python [str] values are sequences of Unicode code points ([list N]).
    - [user_profiles_db], a module-level [Dict[str, UserProfile]], is a
      [gmap] threaded through the endpoints as explicit state.
    - [parsed_options], a [dict] built by item assignment and returned in
      the response body, is an insertion-ordered association list.
    - An endpoint either returns a body or raises [HTTPException]; the
      awaited LangChain chain either returns the completion or raises. *)

From Stdlib Require Import NArith Ascii String.
From stdpp Require Import base option list gmap.

(** ** Python strings *)

Module PyStr.

Local Open Scope N_scope.

Abbreviation char := N (only parsing).
Abbreviation str := (list N) (only parsing).

Definition chr (a : ascii) : char := N_of_ascii a.

(** A literal of the source, one code point per character. *)
Definition py (s : string) : str := chr <$> list_ascii_of_string s.

Definition newline : char := 0x0A.
Definition colon : char := chr ":".
Definition pipe : char := chr "|".

(** [Py_UNICODE_ISSPACE]: the code points [str.strip()] removes. *)
Definition isspace (c : char) : bool :=
  ((0x09 <=? c) && (c <=? 0x0D)) || ((0x1C <=? c) && (c <=? 0x20))
  || (c =? 0x85) || (c =? 0xA0) || (c =? 0x1680)
  || ((0x2000 <=? c) && (c <=? 0x200A))
  || (c =? 0x2028) || (c =? 0x2029) || (c =? 0x202F) || (c =? 0x205F)
  || (c =? 0x3000).

Fixpoint lstrip (s : str) : str :=
  match s with
  | [] => []
  | c :: s' => if isspace c then lstrip s' else s
  end.

Definition rstrip (s : str) : str := reverse (lstrip (reverse s)).

(** [s.strip()] *)
Definition strip (s : str) : str := rstrip (lstrip s).

(** Truth value of a string: non-empty. *)
Definition truthy (s : str) : bool :=
  match s with [] => false | _ :: _ => true end.

(** [c in s] for a one-character [c]. *)
Fixpoint contains (c : char) (s : str) : bool :=
  match s with
  | [] => false
  | x :: s' => (x =? c) || contains c s'
  end.

(** Puts [c] in front of the first field of a split. *)
Definition cons_first (c : char) (fields : list str) : list str :=
  match fields with
  | [] => [[c]]
  | f :: fs => (c :: f) :: fs
  end.

(** [s.split(sep)] for a one-character separator. *)
Fixpoint split (sep : char) (s : str) : list str :=
  match s with
  | [] => [[]]
  | c :: s' =>
      if c =? sep then [] :: split sep s'
      else cons_first c (split sep s')
  end.

(** [s.split(sep, maxsplit)] for a one-character separator and
    [maxsplit >= 0]: at most [maxsplit] cuts, from the left. *)
Fixpoint split_max (sep : char) (s : str) (maxsplit : nat) {struct s}
  : list str :=
  match maxsplit, s with
  | O, _ => [s]
  | S _, [] => [[]]
  | S m, c :: s' =>
      if c =? sep then [] :: split_max sep s' m
      else cons_first c (split_max sep s' maxsplit)
  end.

(** [sep.join(parts)] *)
Fixpoint join (sep : str) (parts : list str) : str :=
  match parts with
  | [] => []
  | [p] => p
  | p :: ps => p ++ sep ++ join sep ps
  end.

End PyStr.
Import PyStr.

(** ** Exceptions and outcomes *)

(** An instance of Python's [Exception] class with its [str(e)] text.
    The only handler of the source is [except Exception], so this is the
    class of exceptions the model speaks about. *)
Record PyException := Exception { exc_text : str }.

Inductive Outcome (A : Type) : Type :=
| Returned (a : A)
| Raised (e : PyException).
Arguments Returned {A} a.
Arguments Raised {A} e.

Definition obind {A B} (o : Outcome A) (k : A -> Outcome B) : Outcome B :=
  match o with
  | Returned a => k a
  | Raised e => Raised e
  end.

(** [a, b = xs]: unpacking into two targets raises [ValueError] unless
    [xs] has exactly two items. *)
Definition unpack2 {A} (xs : list A) : Outcome (A * A) :=
  match xs with
  | [a; b] => Returned (a, b)
  | [] => Raised (Exception (py "not enough values to unpack (expected 2, got 0)"))
  | [_] => Raised (Exception (py "not enough values to unpack (expected 2, got 1)"))
  | _ => Raised (Exception (py "too many values to unpack (expected 2)"))
  end.

(** ** Insertion-ordered dictionaries *)

Module PyDict.

Abbreviation dict V := (list (str * V)) (only parsing).

Fixpoint get {V} (k : str) (d : dict V) : option V :=
  match d with
  | [] => None
  | (k', v) :: d' => if decide (k' = k) then Some v else get k d'
  end.

(** [d[k] = v]: an existing key keeps its position, a new key is
    appended. *)
Fixpoint set {V} (k : str) (v : V) (d : dict V) : dict V :=
  match d with
  | [] => [(k, v)]
  | (k', v') :: d' =>
      if decide (k' = k) then (k, v) :: d' else (k', v') :: set k v d'
  end.

Definition keys {V} (d : dict V) : list str := fst <$> d.

End PyDict.

(** ** The parsing step of [generate_responses_endpoint] (main.py 125-134) *)

Abbreviation Options := (PyDict.dict (list str)).

(** [[opt.strip() for opt in options_str.split('|') if opt.strip()]] *)
Definition parse_options (options_str : str) : list str :=
  strip <$> filter (fun opt => truthy (strip opt) = true) (split pipe options_str).

(** The body of [for line in lines]. *)
Definition parse_line (parsed_options : Options) (line : str)
  : Outcome Options :=
  if contains colon line then
    obind (unpack2 (split_max colon line 1)) (fun '(tone, options_str) =>
      let options := parse_options options_str in
      match options with
      | [] => Returned parsed_options
      | _ :: _ => Returned (PyDict.set (strip tone) options parsed_options)
      end)
  else Returned parsed_options.

Fixpoint parse_lines (parsed_options : Options) (lines : list str)
  : Outcome Options :=
  match lines with
  | [] => Returned parsed_options
  | line :: rest =>
      obind (parse_line parsed_options line) (fun d => parse_lines d rest)
  end.

(** From [response_text] to [parsed_options]. *)
Definition parse_response (response_text : str) : Outcome Options :=
  let lines := split newline (strip response_text) in
  parse_lines [] lines.

(** ** models.py

    A record is a validated instance: every field has a value, the defaults
    of the declarations having been filled in by validation. The [Literal]
    types are enumerations, one constructor per string. *)

Inductive TraitLevel := Trait_low | Trait_medium | Trait_high | Trait_very_high.
Inductive Formality :=
  Formality_formal | Formality_semi_formal | Formality_casual | Formality_chatty.
Inductive Conciseness := Conciseness_concise | Conciseness_verbose.
Inductive Intensity :=
  Intensity_none | Intensity_low | Intensity_medium | Intensity_high.

Record Personality := {
  openness : TraitLevel;
  conscientiousness : TraitLevel;
  extraversion : TraitLevel;
  agreeableness : TraitLevel;
  neuroticism : TraitLevel
}.

Record CommunicationStyle := {
  formality_preference : Formality;
  conciseness_preference : Conciseness;
  humor_level : Intensity;
  empathy_level : TraitLevel;
  flirty_level : Intensity
}.

Record UserProfile := {
  id : str;
  personality : Personality;
  communication_style : CommunicationStyle;
  values_boundaries : list str
}.

Inductive ContextType :=
  Ctx_professional | Ctx_casual | Ctx_personal | Ctx_dating | Ctx_group_chat
| Ctx_other.

Inductive Tone :=
  Tone_professional | Tone_formal | Tone_semi_formal | Tone_chatty
| Tone_flirty | Tone_funny | Tone_empathetic | Tone_direct | Tone_diplomatic
| Tone_concise.

Record GenerateResponseRequest := {
  user_id : str;
  incoming_message : str;
  conversation_context_type : ContextType;
  desired_tones : list Tone
}.

(** The string each [Literal] value is. *)
Definition context_str (c : ContextType) : str :=
  match c with
  | Ctx_professional => py "professional"
  | Ctx_casual => py "casual"
  | Ctx_personal => py "personal"
  | Ctx_dating => py "dating"
  | Ctx_group_chat => py "group_chat"
  | Ctx_other => py "other"
  end.

Definition tone_str (t : Tone) : str :=
  match t with
  | Tone_professional => py "professional"
  | Tone_formal => py "formal"
  | Tone_semi_formal => py "semi_formal"
  | Tone_chatty => py "chatty"
  | Tone_flirty => py "flirty"
  | Tone_funny => py "funny"
  | Tone_empathetic => py "empathetic"
  | Tone_direct => py "direct"
  | Tone_diplomatic => py "diplomatic"
  | Tone_concise => py "concise"
  end.

Definition all_contexts : list ContextType :=
  [Ctx_professional; Ctx_casual; Ctx_personal; Ctx_dating; Ctx_group_chat;
   Ctx_other].

Definition all_tones : list Tone :=
  [Tone_professional; Tone_formal; Tone_semi_formal; Tone_chatty; Tone_flirty;
   Tone_funny; Tone_empathetic; Tone_direct; Tone_diplomatic; Tone_concise].

(** *** Schema validation of a request body

    The body of a POST as [json.loads] hands it to pydantic. A number keeps
    its literal text: no field of [GenerateResponseRequest] accepts one. An
    object is a [dict], so the keys of its members are distinct. *)
#[warnings="-register-all"] Inductive JSON :=
| JNull
| JBool (b : bool)
| JNumber (literal : str)
| JString (s : str)
| JArray (items : list JSON)
| JObject (members : list (str * JSON)).

Inductive Validated (A : Type) : Type :=
| Valid (a : A)
| ValidationError.
Arguments Valid {A} a.
Arguments ValidationError {A}.

Definition vbind {A B} (v : Validated A) (k : A -> Validated B)
  : Validated B :=
  match v with
  | Valid a => k a
  | ValidationError => ValidationError
  end.

(** A [str] field takes a JSON string and nothing else. *)
Definition validate_str (j : JSON) : Validated str :=
  match j with
  | JString s => Valid s
  | _ => ValidationError
  end.

(** A [Literal[...]] field takes exactly one of its strings. *)
Definition validate_literal {A} (all : list A) (to_str : A -> str) (j : JSON)
  : Validated A :=
  match j with
  | JString s =>
      match List.find (fun a => bool_decide (to_str a = s)) all with
      | Some a => Valid a
      | None => ValidationError
      end
  | _ => ValidationError
  end.

Fixpoint validate_items {A} (item : JSON -> Validated A) (items : list JSON)
  : Validated (list A) :=
  match items with
  | [] => Valid []
  | j :: rest =>
      vbind (item j) (fun a =>
      vbind (validate_items item rest) (fun l => Valid (a :: l)))
  end.

(** A [List[...]] field takes a JSON array all of whose items validate;
    the declaration gives no length constraint. *)
Definition validate_list {A} (item : JSON -> Validated A) (j : JSON)
  : Validated (list A) :=
  match j with
  | JArray items => validate_items item items
  | _ => ValidationError
  end.

(** [Field(...)]: the key must be present. *)
Definition required {A} (members : list (str * JSON)) (key : str)
    (field : JSON -> Validated A) : Validated A :=
  match PyDict.get key members with
  | Some j => field j
  | None => ValidationError
  end.

(** A field with a default: an absent key takes the default. *)
Definition with_default {A} (members : list (str * JSON)) (key : str)
    (field : JSON -> Validated A) (default : A) : Validated A :=
  match PyDict.get key members with
  | Some j => field j
  | None => Valid default
  end.

(** Validation of a body against [GenerateResponseRequest]. Keys the
    model does not declare are ignored. *)
Definition validate_GenerateResponseRequest (body : JSON)
  : Validated GenerateResponseRequest :=
  match body with
  | JObject members =>
      vbind (required members (py "user_id") validate_str) (fun uid =>
      vbind (required members (py "incoming_message") validate_str) (fun msg =>
      vbind (with_default members (py "conversation_context_type")
               (validate_literal all_contexts context_str) Ctx_casual) (fun ctx =>
      vbind (required members (py "desired_tones")
               (validate_list (validate_literal all_tones tone_str))) (fun tones =>
      Valid {| user_id := uid; incoming_message := msg;
               conversation_context_type := ctx; desired_tones := tones |}))))
  | _ => ValidationError
  end.

(** ** main.py *)

(** The argument of [chain.ainvoke]. *)
Record ChainInput := {
  user_profile_json : str;
  input_incoming_message : str;
  input_conversation_context_type : str;
  desired_tones_list : str
}.

(** What a handler gives back to FastAPI: a body, or a raised
    [HTTPException(status_code, detail)]. *)
Inductive Response (A : Type) : Type :=
| Ok (body : A)
| HTTPException (status_code : Z) (detail : str).
Arguments Ok {A} body.
Arguments HTTPException {A} status_code detail.

(** The state the handlers run in: the module-level [user_profiles_db] and
    the inputs the chain has been invoked with so far, oldest first. *)
Record World := {
  user_profiles_db : gmap str UserProfile;
  chain_calls : list ChainInput
}.

Definition Handler (A : Type) : Type := World -> Response A * World.

(** A freshly started process. *)
Definition startup : World :=
  {| user_profiles_db := ∅; chain_calls := [] |}.

Record ProfileUpdated := { message : str; updated_user_id : str }.
Record GeneratedOptions := { options : Options }.

Definition not_found : str := py "User profile not found. Please set it first.".

(** [POST /user_profile] *)
Definition set_user_profile (profile : UserProfile) : Handler ProfileUpdated :=
  fun w =>
    (Ok {| message := py "User profile updated successfully";
           updated_user_id := id profile |},
     {| user_profiles_db := <[id profile := profile]> (user_profiles_db w);
        chain_calls := chain_calls w |}).

(** [GET /user_profile/{user_id}]. A [UserProfile] instance is always
    true, so [not profile] holds exactly when [.get] returned [None]. *)
Definition get_user_profile (uid : str) : Handler UserProfile :=
  fun w =>
    match user_profiles_db w !! uid with
    | None => (HTTPException 404 not_found, w)
    | Some profile => (Ok profile, w)
    end.

(** What FastAPI does with the body of a POST: a body that fails
    validation is not handed to the handler, and FastAPI answers with an
    error response of its own making, whose status the model leaves open;
    otherwise the handler is called with the validated value. *)
Inductive Routed (A : Type) : Type :=
| Rejected
| Handled (r : Response A).
Arguments Rejected {A}.
Arguments Handled {A} r.

(** Requests served one after the other. *)
Inductive Call :=
| CallSet (profile : UserProfile)
| CallGet (uid : str)
| CallGenerate (request : GenerateResponseRequest).

Section Generate.

(** [json.dumps(user_profile.model_dump(), indent=2)] *)
Variable json_dumps : UserProfile -> str.

(** The LLM behind [prompt | llm | StrOutputParser()]: given the inputs of
    the earlier invocations and of this one, the completion it returns or
    the exception it raises. *)
Variable chain : list ChainInput -> ChainInput -> Outcome str.

(** [await chain.ainvoke(input)] *)
Definition ainvoke (input : ChainInput) (w : World) : Outcome str * World :=
  (chain (chain_calls w) input,
   {| user_profiles_db := user_profiles_db w;
      chain_calls := chain_calls w ++ [input] |}).

Definition chain_input (user_profile : UserProfile)
    (request : GenerateResponseRequest) : ChainInput :=
  let formatted_user_profile := json_dumps user_profile in
  let desired_tones_str := join (py ", ") (tone_str <$> desired_tones request) in
  {| user_profile_json := formatted_user_profile;
     input_incoming_message := incoming_message request;
     input_conversation_context_type :=
       context_str (conversation_context_type request);
     desired_tones_list := desired_tones_str |}.

(** [POST /generate_responses] *)
Definition generate_responses_endpoint (request : GenerateResponseRequest)
  : Handler GeneratedOptions :=
  fun w =>
    match user_profiles_db w !! user_id request with
    | None => (HTTPException 404 not_found, w)
    | Some user_profile =>
        let '(response_text, w') := ainvoke (chain_input user_profile request) w in
        (* try: ... except Exception as e: *)
        match obind response_text parse_response with
        | Returned parsed_options => (Ok {| options := parsed_options |}, w')
        | Raised e =>
            (HTTPException 500 (py "Error generating responses: " ++ exc_text e), w')
        end
    end.

(** [POST /generate_responses] with its body as received. *)
Definition post_generate_responses (body : JSON) (w : World)
  : Routed GeneratedOptions * World :=
  match validate_GenerateResponseRequest body with
  | ValidationError => (Rejected, w)
  | Valid request =>
      let '(r, w') := generate_responses_endpoint request w in (Handled r, w')
  end.

(** The state after a request has been served. *)
Definition serve (w : World) (c : Call) : World :=
  match c with
  | CallSet profile => snd (set_user_profile profile w)
  | CallGet uid => snd (get_user_profile uid w)
  | CallGenerate request => snd (generate_responses_endpoint request w)
  end.

Definition serve_all (calls : list Call) (w : World) : World :=
  foldl serve w calls.

End Generate.

(** The completion of the spec's parsing example. *)
Definition canned : str :=
  py "Professional: Hello there. | Good day." ++ [newline] ++ py "Funny: lol no".

(** A string of blanks only, as [str.strip()] sees blanks. *)
Definition blank (s : str) : bool := forallb isspace s.

(** The loop body, given [line], assigns nothing to [label]: if the text
    before the first colon trims to [label], no option after it survives. *)
Definition silent_for (label line : str) : Prop :=
  forall tone options_str,
    line = tone ++ colon :: options_str -> contains colon tone = false ->
    strip tone = label -> parse_options options_str = [].

(** No [POST /user_profile] among [calls] carries the id [uid]. *)
Definition never_set (uid : str) (calls : list Call) : bool :=
  forallb (fun c => match c with
                    | CallSet profile => negb (bool_decide (id profile = uid))
                    | _ => true
                    end) calls.

(** A body with the keys and values given and every other field left out. *)
Definition body_with_tones (uid msg : str) (tones : list JSON) : JSON :=
  JObject [(py "user_id", JString uid); (py "incoming_message", JString msg);
           (py "desired_tones", JArray tones)].

(** *** Sample values *)

Definition alice : UserProfile :=
  {| id := py "alice";
     personality :=
       {| openness := Trait_high; conscientiousness := Trait_medium;
          extraversion := Trait_low; agreeableness := Trait_very_high;
          neuroticism := Trait_medium |};
     communication_style :=
       {| formality_preference := Formality_casual;
          conciseness_preference := Conciseness_concise;
          humor_level := Intensity_medium; empathy_level := Trait_high;
          flirty_level := Intensity_none |};
     values_boundaries := [py "no profanity"; py "no politics"] |}.

(** The same user, resubmitted with no boundary statements. *)
Definition alice_again : UserProfile :=
  {| id := py "alice";
     personality := personality alice;
     communication_style := communication_style alice;
     values_boundaries := [] |}.

Definition ask (uid : str) : GenerateResponseRequest :=
  {| user_id := uid; incoming_message := py "Lunch tomorrow?";
     conversation_context_type := Ctx_casual;
     desired_tones := [Tone_funny; Tone_direct] |}.

(** A provider that times out on every call. *)
Definition failing_chain (_ : list ChainInput) (_ : ChainInput) : Outcome str :=
  Raised (Exception (py "Request timed out.")).

(** A provider that answers every call with the canned completion. *)
Definition canned_chain (_ : list ChainInput) (_ : ChainInput) : Outcome str :=
  Returned canned.

(** A stand-in for the serialisation of a profile: its id. *)
Definition dumps_id (profile : UserProfile) : str := id profile.

(** ** models.py, lines 4-22: validation of a [UserProfile] body *)

Definition trait_str (l : TraitLevel) : str :=
  match l with
  | Trait_low => py "low"
  | Trait_medium => py "medium"
  | Trait_high => py "high"
  | Trait_very_high => py "very_high"
  end.

Definition formality_str (f : Formality) : str :=
  match f with
  | Formality_formal => py "formal"
  | Formality_semi_formal => py "semi_formal"
  | Formality_casual => py "casual"
  | Formality_chatty => py "chatty"
  end.

Definition conciseness_str (c : Conciseness) : str :=
  match c with
  | Conciseness_concise => py "concise"
  | Conciseness_verbose => py "verbose"
  end.

Definition intensity_str (i : Intensity) : str :=
  match i with
  | Intensity_none => py "none"
  | Intensity_low => py "low"
  | Intensity_medium => py "medium"
  | Intensity_high => py "high"
  end.

Definition all_traits : list TraitLevel :=
  [Trait_low; Trait_medium; Trait_high; Trait_very_high].
Definition all_formalities : list Formality :=
  [Formality_formal; Formality_semi_formal; Formality_casual; Formality_chatty].
Definition all_concisenesses : list Conciseness :=
  [Conciseness_concise; Conciseness_verbose].
Definition all_intensities : list Intensity :=
  [Intensity_none; Intensity_low; Intensity_medium; Intensity_high].

Definition validate_trait : JSON -> Validated TraitLevel :=
  validate_literal all_traits trait_str.

Definition validate_intensity : JSON -> Validated Intensity :=
  validate_literal all_intensities intensity_str.

(** Every field of [Personality] defaults to "medium". *)
Definition validate_Personality (j : JSON) : Validated Personality :=
  match j with
  | JObject members =>
      vbind (with_default members (py "openness") validate_trait Trait_medium) (fun o =>
      vbind (with_default members (py "conscientiousness") validate_trait Trait_medium) (fun c =>
      vbind (with_default members (py "extraversion") validate_trait Trait_medium) (fun e =>
      vbind (with_default members (py "agreeableness") validate_trait Trait_medium) (fun a =>
      vbind (with_default members (py "neuroticism") validate_trait Trait_medium) (fun n =>
      Valid {| openness := o; conscientiousness := c; extraversion := e;
               agreeableness := a; neuroticism := n |})))))
  | _ => ValidationError
  end.

Definition validate_CommunicationStyle (j : JSON) : Validated CommunicationStyle :=
  match j with
  | JObject members =>
      vbind (with_default members (py "formality_preference")
               (validate_literal all_formalities formality_str) Formality_casual) (fun f =>
      vbind (with_default members (py "conciseness_preference")
               (validate_literal all_concisenesses conciseness_str)
               Conciseness_concise) (fun c =>
      vbind (with_default members (py "humor_level") validate_intensity
               Intensity_medium) (fun h =>
      vbind (with_default members (py "empathy_level") validate_trait
               Trait_medium) (fun e =>
      vbind (with_default members (py "flirty_level") validate_intensity
               Intensity_none) (fun fl =>
      Valid {| formality_preference := f; conciseness_preference := c;
               humor_level := h; empathy_level := e; flirty_level := fl |})))))
  | _ => ValidationError
  end.

(** [id], [personality] and [communication_style] are required;
    [values_boundaries] has [default_factory=list]. *)
Definition validate_UserProfile (body : JSON) : Validated UserProfile :=
  match body with
  | JObject members =>
      vbind (required members (py "id") validate_str) (fun i =>
      vbind (required members (py "personality") validate_Personality) (fun p =>
      vbind (required members (py "communication_style")
               validate_CommunicationStyle) (fun c =>
      vbind (with_default members (py "values_boundaries")
               (validate_list validate_str) []) (fun v =>
      Valid {| id := i; personality := p; communication_style := c;
               values_boundaries := v |}))))
  | _ => ValidationError
  end.

(** [user_profile.model_dump()] (main.py 109): the instance as nested
    dicts, the fields in the order of their declaration. *)
Definition dump_Personality (p : Personality) : JSON :=
  JObject [(py "openness", JString (trait_str (openness p)));
           (py "conscientiousness", JString (trait_str (conscientiousness p)));
           (py "extraversion", JString (trait_str (extraversion p)));
           (py "agreeableness", JString (trait_str (agreeableness p)));
           (py "neuroticism", JString (trait_str (neuroticism p)))].

Definition dump_CommunicationStyle (c : CommunicationStyle) : JSON :=
  JObject [(py "formality_preference", JString (formality_str (formality_preference c)));
           (py "conciseness_preference",
            JString (conciseness_str (conciseness_preference c)));
           (py "humor_level", JString (intensity_str (humor_level c)));
           (py "empathy_level", JString (trait_str (empathy_level c)));
           (py "flirty_level", JString (intensity_str (flirty_level c)))].

Definition model_dump (profile : UserProfile) : JSON :=
  JObject [(py "id", JString (id profile));
           (py "personality", dump_Personality (personality profile));
           (py "communication_style",
            dump_CommunicationStyle (communication_style profile));
           (py "values_boundaries", JArray (JString <$> values_boundaries profile))].

(** [POST /user_profile] with its body as received: a body that fails
    validation is rejected and the handler is not called. *)
Definition post_user_profile (body : JSON) (w : World)
  : Routed ProfileUpdated * World :=
  match validate_UserProfile body with
  | ValidationError => (Rejected, w)
  | Valid profile =>
      let '(r, w') := set_user_profile profile w in (Handled r, w')
  end.

(** ** The output format the system prompt asks for (main.py 85-88) *)

(** "Professional: [Option 1] | [Option 2]": the label, a colon, and the
    options separated by " | ". *)
Definition render_line (entry : str * list str) : str :=
  entry.1 ++ py ": " ++ join (py " | ") entry.2.

(** One such line per tone. *)
Definition render (d : Options) : str := join [newline] (render_line <$> d).

(** A label as the parser stores it: trimmed, without colon or newline. *)
Definition clean_label (label : str) : bool :=
  bool_decide (strip label = label) && negb (contains colon label)
  && negb (contains newline label).

(** An option as the parser stores it: non-empty, trimmed, without pipe or
    newline. *)
Definition clean_option (opt : str) : bool :=
  truthy opt && bool_decide (strip opt = opt) && negb (contains pipe opt)
  && negb (contains newline opt).

Definition clean_entry (entry : str * list str) : bool :=
  clean_label entry.1 && negb (bool_decide (entry.2 = []))
  && forallb clean_option entry.2.

(** Distinct clean labels, each with at least one clean option. *)
Definition well_formed (d : Options) : bool :=
  bool_decide (NoDup (PyDict.keys d)) && forallb clean_entry d.

(** ** Traces of requests *)

(** The profile of the last [POST /user_profile] under [uid] in [calls]. *)
Fixpoint last_set (uid : str) (calls : list Call) : option UserProfile :=
  match calls with
  | [] => None
  | c :: rest =>
      match last_set uid rest with
      | Some profile => Some profile
      | None =>
          match c with
          | CallSet profile =>
              if decide (id profile = uid) then Some profile else None
          | _ => None
          end
      end
  end.

Definition is_generate (c : Call) : bool :=
  match c with CallGenerate _ => true | _ => false end.

(** A first character, if any, that [strip] keeps. *)
Definition starts_clean (s : str) : bool :=
  match s with
  | [] => true
  | c :: _ => negb (isspace c)
  end.

(** The loop body, given [line], assigns [opts] to [label]: the text before
    the first colon trims to [label] and [opts], the options that survive
    after it, are not empty. *)
Definition assigns (label : str) (opts : list str) (line : str) : Prop :=
  exists tone options_str,
    line = tone ++ colon :: options_str /\ contains colon tone = false /\
    strip tone = label /\ parse_options options_str = opts /\ opts <> [].

(** The smallest body [POST /user_profile] accepts for a user id, and the
    profile it validates to. *)
Definition minimal_members (uid : str) : list (str * JSON) :=
  [(py "id", JString uid); (py "personality", JObject []);
   (py "communication_style", JObject [])].

Definition default_profile (uid : str) : UserProfile :=
  {| id := uid;
     personality :=
       {| openness := Trait_medium; conscientiousness := Trait_medium;
          extraversion := Trait_medium; agreeableness := Trait_medium;
          neuroticism := Trait_medium |};
     communication_style :=
       {| formality_preference := Formality_casual;
          conciseness_preference := Conciseness_concise;
          humor_level := Intensity_medium; empathy_level := Trait_medium;
          flirty_level := Intensity_none |};
     values_boundaries := [] |}.


(** * Facts about the string operations *)

Section StringFacts.

Implicit Types (s tone rest : str) (sep c : N).

Lemma contains_app sep s1 s2 :
  contains sep (s1 ++ s2) = contains sep s1 || contains sep s2.
Proof.
  induction s1 as [|x s1 IH]; simpl; [done|].
  by rewrite IH, orb_assoc.
Qed.

Lemma contains_cut sep s :
  contains sep s = true ->
  exists tone rest, s = tone ++ sep :: rest /\ contains sep tone = false.
Proof.
  induction s as [|x s IH]; simpl; [done|].
  destruct (N.eqb_spec x sep) as [->|Hne]; simpl.
  - intros _. by exists [], s.
  - intros (tone & rest & -> & Htone)%IH.
    exists (x :: tone), rest. split; [done|]. simpl.
    rewrite Htone. by apply N.eqb_neq in Hne as ->.
Qed.

Lemma split_max_zero sep s : split_max sep s 0 = [s].
Proof. by destruct s. Qed.

(** One cut at the first separator: the text before it and all the text
    after it. *)
Lemma split_max_cut sep tone rest :
  contains sep tone = false ->
  split_max sep (tone ++ sep :: rest) 1 = [tone; rest].
Proof.
  induction tone as [|x tone IH]; simpl.
  - intros _. by rewrite N.eqb_refl, split_max_zero.
  - intros [Hx Htone]%orb_false_elim. by rewrite Hx, IH.
Qed.

Lemma lstrip_blank s : blank s = true -> lstrip s = [].
Proof.
  induction s as [|c s IH]; simpl; [done|].
  intros [Hc Hs]%andb_prop. rewrite Hc. by apply IH.
Qed.

Lemma strip_blank s : blank s = true -> strip s = [].
Proof. intros Hs. unfold strip. by rewrite (lstrip_blank s). Qed.

Lemma parse_options_blank options_str :
  forallb blank (split pipe options_str) = true ->
  parse_options options_str = [].
Proof.
  unfold parse_options. induction (split pipe options_str) as [|opt opts IH];
    simpl; [done|].
  intros [Hopt Hopts]%andb_prop.
  rewrite filter_cons, (strip_blank opt Hopt), decide_False by done.
  by apply IH.
Qed.

End StringFacts.

(** * Facts about the dictionary *)

Section DictFacts.

Context {V : Type}.
Implicit Types (d : PyDict.dict V) (k : str) (v : V).

Lemma get_set_eq k v d : PyDict.get k (PyDict.set k v d) = Some v.
Proof.
  induction d as [|[k' v'] d IH]; simpl.
  - by rewrite decide_True.
  - destruct (decide (k' = k)); simpl.
    + by rewrite decide_True.
    + by rewrite decide_False.
Qed.

Lemma get_set_ne k k' v d :
  k <> k' -> PyDict.get k' (PyDict.set k v d) = PyDict.get k' d.
Proof.
  intros Hne. induction d as [|[k0 v0] d IH]; simpl.
  - by rewrite decide_False.
  - destruct (decide (k0 = k)) as [->|]; simpl.
    + by rewrite !decide_False.
    + by rewrite IH.
Qed.

Lemma keys_set k v d k' :
  k' ∈ PyDict.keys (PyDict.set k v d) <-> k' = k \/ k' ∈ PyDict.keys d.
Proof.
  unfold PyDict.keys. induction d as [|[k0 v0] d IH]; simpl.
  - rewrite list_elem_of_singleton. split; [by left|].
    intros [?|H]; [done|]. by apply elem_of_nil in H.
  - destruct (decide (k0 = k)) as [->|]; simpl.
    + rewrite !elem_of_cons. tauto.
    + rewrite !elem_of_cons, IH. tauto.
Qed.

(** Item assignment never creates a second entry for a key. *)
Lemma NoDup_keys_set k v d :
  NoDup (PyDict.keys d) -> NoDup (PyDict.keys (PyDict.set k v d)).
Proof.
  induction d as [|[k0 v0] d IH]; simpl.
  - intros _. apply NoDup_singleton.
  - intros [Hk0 Hd]%NoDup_cons. destruct (decide (k0 = k)) as [->|Hne]; simpl.
    + by apply NoDup_cons.
    + apply NoDup_cons. split; [|by apply IH].
      fold (PyDict.keys (PyDict.set k v d)). rewrite keys_set.
      intros [?|?]; [congruence|done].
Qed.

(** With distinct keys, a key that is found has exactly one entry. *)
Lemma entries_get k v d :
  NoDup (PyDict.keys d) -> PyDict.get k d = Some v ->
  filter (fun kv => kv.1 = k) d = [(k, v)].
Proof.
  induction d as [|[k0 v0] d IH]; [done|].
  rewrite filter_cons. cbn [PyDict.get PyDict.keys fmap list_fmap fst].
  intros [Hk0 Hd]%NoDup_cons.
  destruct (decide (k0 = k)) as [->|Hne].
  - intros [= ->]. f_equal.
    clear IH Hd. induction d as [|[k1 v1] d IH]; [done|].
    rewrite filter_cons. cbn [PyDict.keys fmap list_fmap fst] in *.
    rewrite not_elem_of_cons in Hk0.
    destruct Hk0 as [Hk1 Hk0]. rewrite decide_False by done. by apply IH.
  - intros Hget. by apply IH.
Qed.

End DictFacts.

(** * Facts about the parsing step *)

Section ParseFacts.

Implicit Types (d : Options) (line tone options_str : str).

(** What the loop body does with a line that has a colon. *)
Lemma parse_line_colon d tone options_str :
  contains colon tone = false ->
  parse_line d (tone ++ colon :: options_str) =
    Returned match parse_options options_str with
             | [] => d
             | _ :: _ =>
                 PyDict.set (strip tone) (parse_options options_str) d
             end.
Proof.
  intros Htone. unfold parse_line.
  rewrite contains_app. cbn [contains]. rewrite N.eqb_refl, orb_true_r.
  rewrite (split_max_cut _ _ _ Htone). cbn [unpack2 obind].
  by destruct (parse_options options_str).
Qed.

Lemma parse_line_no_colon d line :
  contains colon line = false -> parse_line d line = Returned d.
Proof. intros H. unfold parse_line. by rewrite H. Qed.

(** The loop body either leaves the dictionary alone or assigns the
    non-empty options of the line to its trimmed label. *)
Lemma parse_line_cases d line :
  parse_line d line = Returned d \/
  exists tone options_str,
    line = tone ++ colon :: options_str /\ contains colon tone = false /\
    parse_options options_str <> [] /\
    parse_line d line =
      Returned (PyDict.set (strip tone) (parse_options options_str) d).
Proof.
  destruct (contains colon line) eqn:Hc.
  - apply contains_cut in Hc as (tone & options_str & -> & Htone).
    rewrite (parse_line_colon d _ _ Htone).
    destruct (parse_options options_str) as [|o os] eqn:Ho; [by left|].
    right. exists tone, options_str. by rewrite Ho.
  - left. by apply parse_line_no_colon.
Qed.

Lemma parse_line_total d line : exists d', parse_line d line = Returned d'.
Proof.
  destruct (parse_line_cases d line) as [H|(?&?&_&_&_&H)]; rewrite H; eauto.
Qed.

Lemma parse_lines_total lines : forall d, exists d', parse_lines d lines = Returned d'.
Proof.
  induction lines as [|line lines IH]; intros d; simpl; [eauto|].
  destruct (parse_line_total d line) as [d' ->]. simpl. apply IH.
Qed.

Lemma parse_lines_app d lines1 lines2 :
  parse_lines d (lines1 ++ lines2) =
    obind (parse_lines d lines1) (fun d' => parse_lines d' lines2).
Proof.
  revert d. induction lines1 as [|line lines1 IH]; intros d; simpl; [done|].
  destruct (parse_line d line); simpl; [apply IH|done].
Qed.

(** A line the loop body does nothing with can be left out. *)
Lemma parse_lines_skip line before after :
  (forall d, parse_line d line = Returned d) ->
  forall d, parse_lines d (before ++ line :: after) = parse_lines d (before ++ after).
Proof.
  intros Hline d. rewrite !parse_lines_app.
  destruct (parse_lines d before) as [d'|e]; simpl; [|done].
  by rewrite Hline.
Qed.

(** The label's entry survives every later line that does not assign it. *)
Lemma parse_lines_keep label opts after :
  Forall (silent_for label) after ->
  forall d, NoDup (PyDict.keys d) -> PyDict.get label d = Some opts ->
  exists d', parse_lines d after = Returned d' /\
    NoDup (PyDict.keys d') /\ PyDict.get label d' = Some opts.
Proof.
  induction 1 as [|line after Hline _ IH]; intros d Hnd Hget; simpl.
  - eauto.
  - destruct (parse_line_cases d line)
      as [->|(tone & options_str & -> & Htone & Hopts & ->)]; simpl.
    + by apply IH.
    + apply IH; [by apply NoDup_keys_set|].
      rewrite get_set_ne; [done|]. intros Heq.
      by apply Hopts, (Hline tone).
Qed.

(** A label no line assigns has no entry. *)
Lemma parse_lines_absent label lines :
  Forall (silent_for label) lines ->
  forall d, PyDict.get label d = None ->
  exists d', parse_lines d lines = Returned d' /\ PyDict.get label d' = None.
Proof.
  induction 1 as [|line lines Hline _ IH]; intros d Hget; simpl.
  - eauto.
  - destruct (parse_line_cases d line)
      as [->|(tone & options_str & -> & Htone & Hopts & ->)]; simpl.
    + by apply IH.
    + apply IH. rewrite get_set_ne; [done|]. intros Heq.
      by apply Hopts, (Hline tone).
Qed.

Lemma parse_lines_NoDup lines :
  forall d d', NoDup (PyDict.keys d) -> parse_lines d lines = Returned d' ->
  NoDup (PyDict.keys d').
Proof.
  induction lines as [|line lines IH]; intros d d' Hnd; simpl.
  - by intros [= <-].
  - destruct (parse_line_cases d line) as [->|(tone & opts & _ & _ & _ & ->)];
      simpl; apply IH; [done|]. by apply NoDup_keys_set.
Qed.

(** The last line that assigns a label decides the label's entry. *)
Lemma parse_lines_last label before tone options_str after :
  contains colon tone = false -> strip tone = label ->
  parse_options options_str <> [] ->
  Forall (silent_for label) after ->
  exists d, parse_lines [] (before ++ (tone ++ colon :: options_str) :: after)
            = Returned d /\
    NoDup (PyDict.keys d) /\
    PyDict.get label d = Some (parse_options options_str).
Proof.
  intros Htone Hlabel Hopts Hafter. rewrite parse_lines_app.
  destruct (parse_lines_total before []) as [d0 Hd0]. rewrite Hd0. simpl.
  rewrite (parse_line_colon _ _ _ Htone). simpl.
  destruct (parse_options options_str) as [|o os] eqn:Ho; [done|].
  rewrite Hlabel. apply parse_lines_keep; [exact Hafter| |].
  - apply NoDup_keys_set. eapply parse_lines_NoDup; [|exact Hd0]. constructor.
  - apply get_set_eq.
Qed.

End ParseFacts.

(** * The parsing step: the spec's properties *)

(** C1. For the completion made of the line
    "Professional: Hello there. | Good day." followed by the line
    "Funny: lol no", the parsing step yields exactly the mapping
    {"Professional": ["Hello there.", "Good day."], "Funny": ["lol no"]},
    the entries in this order. *)
Theorem parse_response_canned :
  parse_response canned = Returned
    [(py "Professional", [py "Hello there."; py "Good day."]);
     (py "Funny", [py "lol no"])].
Proof. vm_compute. reflexivity. Qed.

(** C7, counterexample. In the completion of the two lines "Sad: x" and
    "Sad: | " the second line has a colon and only blank options after it,
    yet the returned mapping has an entry for its label "Sad": the one the
    first line assigned. *)
Lemma blank_options_label_present :
  ~ (forall (response_text : str) (before after : list str)
       (tone options_str : str) (parsed_options : Options),
       split newline (strip response_text)
         = before ++ (tone ++ colon :: options_str) :: after ->
       contains colon tone = false ->
       forallb blank (split pipe options_str) = true ->
       parse_response response_text = Returned parsed_options ->
       PyDict.get (strip tone) parsed_options = None).
Proof.
  intros Hclaim.
  specialize (Hclaim (py "Sad: x" ++ [newline] ++ py "Sad: | ")
                [py "Sad: x"] [] (py "Sad") (py " |") [(py "Sad", [py "x"])]
                eq_refl eq_refl eq_refl eq_refl).
  by vm_compute in Hclaim.
Qed.

(** C7, as the code has it. A completion line that has a colon, and whose
    text after the first colon splits on '|' into empty or blank segments
    only, adds no entry: the loop body leaves the dictionary as it was, the
    returned mapping is the one the other lines give, and it has no entry
    for the line's label unless another line assigns that label. *)
Theorem blank_options_no_entry
    (response_text : str) (before after : list str) (tone options_str : str) :
  split newline (strip response_text)
    = before ++ (tone ++ colon :: options_str) :: after ->
  contains colon tone = false ->
  forallb blank (split pipe options_str) = true ->
  (forall d, parse_line d (tone ++ colon :: options_str) = Returned d) /\
  parse_response response_text = parse_lines [] (before ++ after) /\
  (Forall (silent_for (strip tone)) (before ++ after) ->
   exists parsed_options,
     parse_response response_text = Returned parsed_options /\
     PyDict.get (strip tone) parsed_options = None).
Proof.
  intros Hlines Htone Hblank.
  assert (forall d, parse_line d (tone ++ colon :: options_str) = Returned d)
    as Hline.
  { intros d. rewrite (parse_line_colon d _ _ Htone).
    by rewrite (parse_options_blank _ Hblank). }
  assert (parse_response response_text = parse_lines [] (before ++ after))
    as Hskip.
  { unfold parse_response. cbv zeta. rewrite Hlines.
    by apply parse_lines_skip. }
  split; [done|]. split; [done|].
  intros Hothers. rewrite Hskip. by apply parse_lines_absent.
Qed.

Lemma blank_options_no_entry_witness :
  parse_response (py "Sad: | ") = Returned [].
Proof.
  apply (blank_options_no_entry (py "Sad: | ") [] [] (py "Sad") (py " |"));
    reflexivity.
Defined.

(** C8. The parsing step is total: for every completion text it returns a
    mapping and raises nothing. A line with no colon contributes nothing:
    the loop body leaves the dictionary as it was, and the returned mapping
    is the one the other lines give. *)
Theorem parse_total_colonless_ignored :
  (forall response_text : str,
     exists parsed_options, parse_response response_text = Returned parsed_options) /\
  (forall (response_text : str) (before after : list str) (line : str),
     split newline (strip response_text) = before ++ line :: after ->
     contains colon line = false ->
     (forall d, parse_line d line = Returned d) /\
     parse_response response_text = parse_lines [] (before ++ after)).
Proof.
  split.
  - intros response_text. apply parse_lines_total.
  - intros response_text before after line Hlines Hline.
    split; [intros d; by apply parse_line_no_colon|].
    unfold parse_response. cbv zeta. rewrite Hlines.
    apply parse_lines_skip. intros d. by apply parse_line_no_colon.
Qed.

Lemma parse_total_colonless_ignored_witness :
  parse_response (py "Sure, here you go" ++ [newline] ++ py "Funny: lol no")
  = parse_lines [] ([] ++ [py "Funny: lol no"]).
Proof.
  apply (proj2 parse_total_colonless_ignored
           (py "Sure, here you go" ++ [newline] ++ py "Funny: lol no")
           [] [py "Funny: lol no"] (py "Sure, here you go"));
    reflexivity.
Defined.

(** C10. When two or more lines of a completion have the same trimmed label
    before their first colon and each has at least one non-empty option, the
    returned mapping has exactly one entry for that label, and it holds the
    options of the last such line; those of the earlier lines are gone. *)
Theorem duplicate_label_last_wins
    (response_text label : str) (lines0 lines1 lines2 : list str)
    (tone1 options_str1 tone2 options_str2 : str) :
  split newline (strip response_text)
    = lines0 ++ (tone1 ++ colon :: options_str1)
        :: lines1 ++ (tone2 ++ colon :: options_str2) :: lines2 ->
  contains colon tone1 = false -> strip tone1 = label ->
  parse_options options_str1 <> [] ->
  contains colon tone2 = false -> strip tone2 = label ->
  parse_options options_str2 <> [] ->
  Forall (silent_for label) lines2 ->
  exists parsed_options,
    parse_response response_text = Returned parsed_options /\
    PyDict.get label parsed_options = Some (parse_options options_str2) /\
    filter (fun kv => kv.1 = label) parsed_options
      = [(label, parse_options options_str2)].
Proof.
  intros Hlines _ _ _ Htone2 Hlabel2 Hopts2 Hlater.
  unfold parse_response. cbv zeta. rewrite Hlines.
  rewrite (app_comm_cons lines1), app_assoc.
  destruct (parse_lines_last label
              (lines0 ++ (tone1 ++ colon :: options_str1) :: lines1)
              tone2 options_str2 lines2 Htone2 Hlabel2 Hopts2 Hlater)
    as (d & -> & Hnd & Hget).
  exists d. split; [done|]. split; [done|]. by apply entries_get.
Qed.

Lemma duplicate_label_last_wins_witness :
  exists parsed_options,
    parse_response (py "Funny: a | b" ++ [newline] ++ py " Funny : c")
      = Returned parsed_options /\
    PyDict.get (py "Funny") parsed_options = Some [py "c"] /\
    filter (fun kv => kv.1 = py "Funny") parsed_options
      = [(py "Funny", [py "c"])].
Proof.
  apply (duplicate_label_last_wins
           (py "Funny: a | b" ++ [newline] ++ py " Funny : c") (py "Funny")
           [] [] [] (py "Funny") (py " a | b") (py " Funny ") (py " c"));
    try reflexivity; try (vm_compute; discriminate).
  apply Forall_nil_2.
Defined.

(** * The profile store *)

(** C3. Whatever the store holds, [set_user_profile p] followed by
    [get_user_profile] on [p]'s id returns [p]. *)
Theorem set_then_get (p : UserProfile) (w : World) :
  get_user_profile (id p) (snd (set_user_profile p w))
  = (Ok p, snd (set_user_profile p w)).
Proof.
  unfold get_user_profile. simpl. by rewrite lookup_insert_eq.
Qed.

(** C4. Setting [p1] and then [p2] under the same id leaves [p2], whole, as
    the entry of that id: the store is the one a single [set_user_profile p2]
    gives, and a boundary statement of [p1] that [p2] omits is not in the
    entry. *)
Theorem set_twice_replaces (p1 p2 : UserProfile) (w : World) :
  id p1 = id p2 ->
  let w' := snd (set_user_profile p2 (snd (set_user_profile p1 w))) in
  user_profiles_db w' !! id p1 = Some p2 /\
  user_profiles_db w' = user_profiles_db (snd (set_user_profile p2 w)) /\
  get_user_profile (id p1) w' = (Ok p2, w') /\
  (forall stored b,
     user_profiles_db w' !! id p1 = Some stored ->
     b ∈ values_boundaries p1 -> b ∉ values_boundaries p2 ->
     b ∉ values_boundaries stored).
Proof.
  intros Hid w'.
  assert (user_profiles_db w' !! id p1 = Some p2) as Hget.
  { subst w'. simpl. rewrite Hid. apply lookup_insert_eq. }
  split; [done|]. split; [|split].
  - subst w'. simpl. rewrite Hid. apply insert_insert_eq.
  - unfold get_user_profile. by rewrite Hget.
  - intros stored b Hstored _ Hb. rewrite Hget in Hstored.
    by injection Hstored as <-.
Qed.

Lemma set_twice_replaces_witness :
  user_profiles_db
    (snd (set_user_profile alice_again (snd (set_user_profile alice startup))))
    !! py "alice" = Some alice_again.
Proof.
  apply (set_twice_replaces alice alice_again startup). reflexivity.
Defined.

(** * The endpoints and the provider *)

Section EndpointFacts.

Variable json_dumps : UserProfile -> str.
Variable chain : list ChainInput -> ChainInput -> Outcome str.

Implicit Types (w : World) (request : GenerateResponseRequest) (uid : str).

(** Only [set_user_profile] writes the store. *)
Lemma generate_keeps_store request w :
  user_profiles_db (snd (generate_responses_endpoint json_dumps chain request w))
  = user_profiles_db w.
Proof.
  unfold generate_responses_endpoint.
  destruct (user_profiles_db w !! user_id request); [|done].
  unfold ainvoke. by destruct (obind _ _).
Qed.

Lemma serve_lookup uid w (c : Call) :
  never_set uid [c] = true ->
  user_profiles_db (serve json_dumps chain w c) !! uid = user_profiles_db w !! uid.
Proof.
  destruct c as [profile|uid'|request]; simpl.
  - rewrite andb_true_r. intros Hne%negb_true_iff%bool_decide_eq_false.
    by apply lookup_insert_ne.
  - intros _. unfold get_user_profile. by destruct (user_profiles_db w !! uid').
  - intros _. by rewrite generate_keeps_store.
Qed.

Lemma serve_all_lookup uid (calls : list Call) :
  never_set uid calls = true ->
  forall w, user_profiles_db (serve_all json_dumps chain calls w) !! uid
            = user_profiles_db w !! uid.
Proof.
  induction calls as [|c calls IH]; [done|].
  intros [Hc Hcalls]%andb_prop w. unfold serve_all. simpl.
  fold (serve_all json_dumps chain calls (serve json_dumps chain w c)).
  rewrite (IH Hcalls). apply serve_lookup. simpl. by rewrite Hc.
Qed.

(** C2. When the request's user id is in the store and the provider call
    raises, [generate_responses_endpoint] answers 500 with the detail
    "Error generating responses: " followed by the exception's text, and the
    store is what it was before the call. *)
Theorem provider_failure_is_500 request w (user_profile : UserProfile)
    (e : PyException) :
  user_profiles_db w !! user_id request = Some user_profile ->
  chain (chain_calls w) (chain_input json_dumps user_profile request) = Raised e ->
  fst (generate_responses_endpoint json_dumps chain request w)
    = HTTPException 500 (py "Error generating responses: " ++ exc_text e) /\
  user_profiles_db (snd (generate_responses_endpoint json_dumps chain request w))
    = user_profiles_db w.
Proof.
  intros Hprofile Hraise. split; [|apply generate_keeps_store].
  unfold generate_responses_endpoint, ainvoke. by rewrite Hprofile, Hraise.
Qed.

(** C5. When the request's user id is not a key of the store,
    [generate_responses_endpoint] answers 404 and the chain is not invoked:
    the state, with its record of the chain's invocations, is unchanged. *)
Theorem unknown_user_is_404 request w :
  user_profiles_db w !! user_id request = None ->
  generate_responses_endpoint json_dumps chain request w
    = (HTTPException 404 not_found, w) /\
  chain_calls (snd (generate_responses_endpoint json_dumps chain request w))
    = chain_calls w.
Proof.
  intros Hnone. unfold generate_responses_endpoint. by rewrite Hnone.
Qed.

(** C6. After any requests served since startup, none of which set a profile
    under [uid], [get_user_profile uid] answers 404 with the detail
    "User profile not found. Please set it first.". *)
Theorem get_never_set_is_404 uid (calls : list Call) :
  never_set uid calls = true ->
  fst (get_user_profile uid (serve_all json_dumps chain calls startup))
  = HTTPException 404 (py "User profile not found. Please set it first.").
Proof.
  intros Hnever. unfold get_user_profile.
  by rewrite (serve_all_lookup uid calls Hnever startup).
Qed.

(** A completion that comes back is parsed and returned under "options". *)
Lemma generate_ok request w (user_profile : UserProfile) (response_text : str) :
  user_profiles_db w !! user_id request = Some user_profile ->
  chain (chain_calls w) (chain_input json_dumps user_profile request)
    = Returned response_text ->
  exists parsed_options,
    parse_response response_text = Returned parsed_options /\
    fst (generate_responses_endpoint json_dumps chain request w)
      = Ok {| options := parsed_options |}.
Proof.
  intros Hprofile Hret.
  destruct (parse_lines_total (split newline (strip response_text)) [])
    as [d Hd].
  exists d. split; [done|].
  unfold generate_responses_endpoint, ainvoke. rewrite Hprofile, Hret. simpl.
  unfold parse_response. by rewrite Hd.
Qed.

End EndpointFacts.

Lemma provider_failure_is_500_witness :
  fst (generate_responses_endpoint dumps_id failing_chain (ask (py "alice"))
         (snd (set_user_profile alice startup)))
    = HTTPException 500 (py "Error generating responses: Request timed out.") /\
  user_profiles_db
    (snd (generate_responses_endpoint dumps_id failing_chain (ask (py "alice"))
            (snd (set_user_profile alice startup))))
    = user_profiles_db (snd (set_user_profile alice startup)).
Proof.
  apply (provider_failure_is_500 dumps_id failing_chain (ask (py "alice"))
           (snd (set_user_profile alice startup)) alice
           (Exception (py "Request timed out."))).
  - apply lookup_insert_eq.
  - reflexivity.
Defined.

Lemma unknown_user_is_404_witness :
  generate_responses_endpoint dumps_id canned_chain (ask (py "bob")) startup
    = (HTTPException 404 not_found, startup) /\
  chain_calls
    (snd (generate_responses_endpoint dumps_id canned_chain (ask (py "bob"))
            startup)) = [].
Proof.
  apply (unknown_user_is_404 dumps_id canned_chain (ask (py "bob")) startup).
  apply lookup_empty.
Defined.

Lemma get_never_set_is_404_witness :
  fst (get_user_profile (py "bob")
         (serve_all dumps_id canned_chain
            [CallSet alice; CallGet (py "bob"); CallGenerate (ask (py "alice"))]
            startup))
  = HTTPException 404 (py "User profile not found. Please set it first.").
Proof.
  apply (get_never_set_is_404 dumps_id canned_chain (py "bob")
           [CallSet alice; CallGet (py "bob"); CallGenerate (ask (py "alice"))]).
  vm_compute. reflexivity.
Defined.

(** * Schema validation of [GenerateResponseRequest] *)

Section ValidationFacts.

Context {A : Type} (all : list A) (to_str : A -> str).

Lemma validate_literal_inv (j : JSON) (a : A) :
  validate_literal all to_str j = Valid a -> j = JString (to_str a).
Proof.
  destruct j as [| | |s| |]; simpl; try done.
  destruct (List.find _ all) as [a'|] eqn:Hfind; [|done].
  intros [= ->]. apply find_some in Hfind as [_ Ha].
  by apply bool_decide_eq_true in Ha as ->.
Qed.

Lemma validate_items_inv (items : list JSON) :
  forall l : list A,
    validate_items (validate_literal all to_str) items = Valid l ->
    items = (fun a => JString (to_str a)) <$> l.
Proof.
  induction items as [|j items IH]; simpl.
  - by intros l [= <-].
  - destruct (validate_literal all to_str j) as [a|] eqn:Hj; simpl; [|done].
    destruct (validate_items _ items) as [l'|]; simpl; [|done].
    intros l [= <-]. rewrite fmap_cons, (validate_literal_inv _ _ Hj).
    f_equal. by apply IH.
Qed.

End ValidationFacts.

(** An accepted body is an object whose "desired_tones" is the array of
    the request's tones, item for item. *)
Lemma validate_desired_tones (body : JSON) (request : GenerateResponseRequest) :
  validate_GenerateResponseRequest body = Valid request ->
  exists members,
    body = JObject members /\
    PyDict.get (py "desired_tones") members
      = Some (JArray ((fun t => JString (tone_str t)) <$> desired_tones request)).
Proof.
  destruct body as [| | | | |members]; try done.
  intros Hvalid. exists members. split; [done|].
  unfold validate_GenerateResponseRequest, required, with_default in Hvalid.
  destruct (PyDict.get (py "user_id") members) as [j1|]; [|done].
  destruct (validate_str j1); [|done].
  destruct (PyDict.get (py "incoming_message") members) as [j2|]; [|done].
  destruct (validate_str j2); [|done]. cbn [vbind] in Hvalid.
  assert (forall (c : Validated ContextType) k,
            vbind c k = Valid request -> exists ctx, k ctx = Valid request)
    as Hctx by (intros [ctx|] k; simpl; [eauto|done]).
  apply Hctx in Hvalid as [ctx Hvalid]. clear Hctx.
  destruct (PyDict.get (py "desired_tones") members) as [j4|]; [|done].
  destruct j4 as [| | | |items|]; try done. cbn [validate_list] in Hvalid.
  destruct (validate_items _ items) as [tones|] eqn:Htones; [|done].
  injection Hvalid as <-. simpl.
  by rewrite (validate_items_inv _ _ _ _ Htones).
Qed.

(** C9, counterexample. A body whose "desired_tones" is the empty array,
    with "user_id" and "incoming_message" strings, passes validation: not
    every accepted request has a non-empty [desired_tones]. *)
Lemma empty_desired_tones_accepted :
  ~ (forall body request,
       validate_GenerateResponseRequest body = Valid request ->
       desired_tones request <> []).
Proof.
  intros Hclaim.
  by apply (Hclaim (body_with_tones (py "alice") (py "Lunch tomorrow?") [])
              {| user_id := py "alice"; incoming_message := py "Lunch tomorrow?";
                 conversation_context_type := Ctx_casual;
                 desired_tones := [] |}).
Qed.

(** * More about the string operations *)

Section StripFacts.

Implicit Types (s t ws : str) (c sep : N).

Lemma blank_app s t : blank (s ++ t) = blank s && blank t.
Proof. apply forallb_app. Qed.

Lemma blank_reverse s : blank s = true -> blank (reverse s) = true.
Proof.
  unfold blank. rewrite !forallb_forall. intros H c Hc. apply H.
  rewrite <- list_elem_of_In in *. by rewrite elem_of_reverse in Hc.
Qed.

(** [lstrip] removes a blank prefix and nothing else. *)
Lemma lstrip_cut s : exists ws, s = ws ++ lstrip s /\ blank ws = true.
Proof.
  induction s as [|c s (ws & Hs & Hws)]; simpl.
  - by exists [].
  - destruct (isspace c) eqn:Hc.
    + exists (c :: ws). simpl. rewrite Hc, Hws. by rewrite <- Hs.
    + by exists [].
Qed.

Lemma rstrip_cut s : exists ws, s = rstrip s ++ ws /\ blank ws = true.
Proof.
  destruct (lstrip_cut (reverse s)) as (ws & Hs & Hws).
  exists (reverse ws). split; [|by apply blank_reverse].
  unfold rstrip. rewrite <- reverse_app, <- Hs. by rewrite reverse_involutive.
Qed.

Lemma lstrip_starts_clean s : starts_clean (lstrip s) = true.
Proof.
  induction s as [|c s IH]; simpl; [done|].
  destruct (isspace c) eqn:Hc; [done|]. simpl. by rewrite Hc.
Qed.

Lemma lstrip_fix s : starts_clean s = true -> lstrip s = s.
Proof.
  destruct s as [|c s]; simpl; [done|]. by intros ->%negb_true_iff.
Qed.

Lemma lstrip_blank_app ws s : blank ws = true -> lstrip (ws ++ s) = lstrip s.
Proof.
  induction ws as [|c ws IH]; simpl; [done|].
  intros [-> Hws]%andb_prop. by apply IH.
Qed.

Lemma lstrip_app_clean s t :
  lstrip s <> [] -> lstrip (s ++ t) = lstrip s ++ t.
Proof.
  induction s as [|c s IH]; simpl; [done|]. by destruct (isspace c).
Qed.

Lemma rstrip_blank_app s ws : blank ws = true -> rstrip (s ++ ws) = rstrip s.
Proof.
  intros Hws. unfold rstrip. rewrite reverse_app.
  by rewrite lstrip_blank_app by by apply blank_reverse.
Qed.

Lemma rstrip_nil_blank s : rstrip s = [] -> blank s = true.
Proof.
  destruct (rstrip_cut s) as (ws & Hs & Hws). intros Hnil.
  rewrite Hnil in Hs. simpl in Hs. by subst.
Qed.

Lemma rstrip_starts_clean s :
  starts_clean s = true -> starts_clean (rstrip s) = true.
Proof.
  destruct (rstrip_cut s) as (ws & Hs & _).
  destruct (rstrip s) as [|c r]; [done|]. rewrite Hs. by simpl.
Qed.

Lemma rstrip_ends_clean s : starts_clean (reverse (rstrip s)) = true.
Proof.
  unfold rstrip. rewrite reverse_involutive. apply lstrip_starts_clean.
Qed.

(** A string whose ends are not blanks is what [strip] returns for it. *)
Lemma strip_fix s :
  starts_clean s = true -> starts_clean (reverse s) = true -> strip s = s.
Proof.
  intros Hhead Hlast. unfold strip, rstrip.
  by rewrite (lstrip_fix s), (lstrip_fix (reverse s)), reverse_involutive.
Qed.

Lemma strip_ends_clean s :
  starts_clean (strip s) = true /\ starts_clean (reverse (strip s)) = true.
Proof.
  split; [|apply rstrip_ends_clean].
  apply rstrip_starts_clean, lstrip_starts_clean.
Qed.

Lemma strip_idem s : strip (strip s) = strip s.
Proof. destruct (strip_ends_clean s). by apply strip_fix. Qed.

Lemma strip_fix_inv s :
  strip s = s -> starts_clean s = true /\ starts_clean (reverse s) = true.
Proof. intros <-. apply strip_ends_clean. Qed.

(** Blanks around a string do not change what [strip] returns. *)
Lemma strip_pad ws1 s ws2 :
  blank ws1 = true -> blank ws2 = true -> strip (ws1 ++ s ++ ws2) = strip s.
Proof.
  intros H1 H2. unfold strip. rewrite (lstrip_blank_app _ _ H1).
  destruct (lstrip s) as [|c r] eqn:Hs.
  - destruct (lstrip_cut s) as (ws & Heq & Hws). rewrite Hs, app_nil_r in Heq.
    subst ws. rewrite <- (app_nil_r (s ++ ws2)).
    rewrite lstrip_blank_app; [done|]. by rewrite blank_app, Hws, H2.
  - rewrite lstrip_app_clean by by rewrite Hs.
    rewrite Hs. by apply rstrip_blank_app.
Qed.

(** [strip] returns a part of its argument. *)
Lemma strip_cut s :
  exists ws1 ws2, s = ws1 ++ strip s ++ ws2 /\ blank ws1 = true /\ blank ws2 = true.
Proof.
  destruct (lstrip_cut s) as (ws1 & Hs & H1).
  destruct (rstrip_cut (lstrip s)) as (ws2 & Hr & H2).
  exists ws1, ws2. unfold strip. by rewrite <- Hr.
Qed.

Lemma contains_strip c s : contains c s = false -> contains c (strip s) = false.
Proof.
  destruct (strip_cut s) as (ws1 & ws2 & Hs & _). rewrite Hs at 1.
  rewrite !contains_app. by intros [_ [? _]%orb_false_elim]%orb_false_elim.
Qed.

End StripFacts.

Section SplitFacts.

Implicit Types (s a b : str) (c sep : N).

Lemma split_no_sep sep s : contains sep s = false -> split sep s = [s].
Proof.
  induction s as [|x s IH]; simpl; [done|].
  intros [Hx Hs]%orb_false_elim. by rewrite Hx, IH.
Qed.

(** The field before the first separator, then the fields of the rest. *)
Lemma split_cut sep a b :
  contains sep a = false -> split sep (a ++ sep :: b) = a :: split sep b.
Proof.
  induction a as [|x a IH]; simpl.
  - by rewrite N.eqb_refl.
  - intros [Hx Ha]%orb_false_elim. by rewrite Hx, IH.
Qed.

(** A character the string does not have is in none of its fields; the
    separator is in none in any case. *)
Lemma split_fields sep c s :
  c = sep \/ contains c s = false ->
  Forall (fun f => contains c f = false) (split sep s).
Proof.
  induction s as [|x s IH]; simpl; intros Hc.
  - by repeat constructor.
  - assert (c = sep \/ contains c s = false) as Hs.
    { destruct Hc as [?|[_ ?]%orb_false_elim]; [by left|by right]. }
    specialize (IH Hs). destruct (N.eqb_spec x sep) as [->|Hne].
    + by constructor.
    + destruct (split sep s) as [|f fs]; simpl.
      * constructor; [|done]. simpl. rewrite orb_false_r.
        destruct Hc as [->|[? _]%orb_false_elim]; [by apply N.eqb_neq|done].
      * apply Forall_cons in IH as [Hf Hfs]. constructor; [|done]. simpl.
        rewrite Hf, orb_false_r.
        destruct Hc as [->|[? _]%orb_false_elim]; [by apply N.eqb_neq|done].
Qed.

Lemma split_not_nil sep s : split sep s <> [].
Proof.
  destruct s as [|x s]; simpl; [done|].
  destruct (x =? sep)%N; [done|]. by destruct (split sep s).
Qed.

(** Joining the fields with the separator gives the string back. *)
Lemma join_split sep s : join [sep] (split sep s) = s.
Proof.
  induction s as [|x s IH]; simpl; [done|].
  pose proof (split_not_nil sep s) as Hnil.
  destruct (split sep s) as [|f fs]; [done|].
  destruct (N.eqb_spec x sep) as [->|Hne].
  - change (join [sep] ([] :: f :: fs))
      with ([] ++ [sep] ++ join [sep] (f :: fs)).
    by rewrite IH.
  - cbn [cons_first]. rewrite <- IH. by destruct fs.
Qed.

End SplitFacts.

(** * What the parser returns *)

Section ParsedShape.

Implicit Types (d : Options) (line tone options_str label : str).

Lemma parse_options_fields (segs : list str) :
  Forall (fun f => contains pipe f = false) segs ->
  Forall (fun f => contains newline f = false) segs ->
  forallb clean_option
    (strip <$> filter (fun opt => truthy (strip opt) = true) segs) = true.
Proof.
  induction segs as [|seg segs IH]; [done|].
  intros [Hp Hps]%Forall_cons [Hn Hns]%Forall_cons. rewrite filter_cons.
  destruct (decide (truthy (strip seg) = true)) as [Ht|_]; [|by apply IH].
  rewrite fmap_cons. cbn [forallb]. rewrite (IH Hps Hns), andb_true_r.
  unfold clean_option. rewrite Ht, strip_idem, bool_decide_eq_true_2 by done.
  by rewrite !contains_strip.
Qed.

Lemma parse_options_clean options_str :
  contains newline options_str = false ->
  forallb clean_option (parse_options options_str) = true.
Proof.
  intros Hn. apply parse_options_fields; apply split_fields; [by left|by right].
Qed.

Lemma forallb_set {V} (P : str * V -> bool) (k : str) (v : V)
    (d : PyDict.dict V) :
  forallb P d = true -> P (k, v) = true -> forallb P (PyDict.set k v d) = true.
Proof.
  intros Hd Hkv. induction d as [|[k' v'] d IH]; simpl in *.
  - by rewrite Hkv.
  - apply andb_prop in Hd as [Hk' Hd]. destruct (decide (k' = k)); simpl.
    + by rewrite Hkv, Hd.
    + by rewrite Hk', IH.
Qed.

(** The loop body keeps every entry clean. *)
Lemma parse_line_clean d line d' :
  contains newline line = false -> forallb clean_entry d = true ->
  parse_line d line = Returned d' -> forallb clean_entry d' = true.
Proof.
  intros Hn Hd.
  destruct (parse_line_cases d line)
    as [->|(tone & options_str & -> & Htone & Hopts & ->)].
  - by intros [= <-].
  - intros [= <-]. rewrite contains_app in Hn.
    apply orb_false_elim in Hn as [Hn1 [_ Hn2]%orb_false_elim].
    apply forallb_set; [done|]. unfold clean_entry, clean_label. simpl.
    rewrite strip_idem, bool_decide_eq_true_2 by done.
    rewrite !contains_strip by done. simpl.
    rewrite bool_decide_eq_false_2 by done. simpl.
    by apply parse_options_clean.
Qed.

Lemma parse_lines_clean lines :
  Forall (fun line => contains newline line = false) lines ->
  forall d d', forallb clean_entry d = true ->
  parse_lines d lines = Returned d' -> forallb clean_entry d' = true.
Proof.
  induction 1 as [|line lines Hline _ IH]; intros d d' Hd; simpl.
  - by intros [= <-].
  - destruct (parse_line d line) as [d1|e] eqn:Hd1; simpl; [|done].
    apply IH. by apply (parse_line_clean d line).
Qed.

End ParsedShape.

(** X1. Whatever the completion, the mapping the parsing step returns is
    well formed: its labels are pairwise distinct, trimmed and without colon
    or newline, and each label has at least one option, every option
    non-empty, trimmed and without pipe or newline. *)
Theorem parse_response_well_formed (response_text : str) :
  exists parsed_options,
    parse_response response_text = Returned parsed_options /\
    well_formed parsed_options = true.
Proof.
  destruct (parse_lines_total (split newline (strip response_text)) [])
    as [d Hd].
  exists d. split; [done|]. unfold well_formed.
  rewrite bool_decide_eq_true_2.
  - apply (parse_lines_clean (split newline (strip response_text))
             (split_fields newline newline (strip response_text)
                (or_introl eq_refl)) [] d eq_refl Hd).
  - eapply parse_lines_NoDup; [|exact Hd]. constructor.
Qed.

(** * A completion in the format the prompt asks for *)

Section RenderFacts.

Implicit Types (d acc : Options) (opts parts : list str) (s a b ws sep : str).

Lemma parse_options_single a :
  contains pipe a = false ->
  parse_options a = if truthy (strip a) then [strip a] else [].
Proof.
  intros Ha. unfold parse_options. rewrite (split_no_sep _ _ Ha).
  rewrite filter_cons, filter_nil. by destruct (truthy (strip a)).
Qed.

Lemma parse_options_cons a b :
  contains pipe a = false ->
  parse_options (a ++ pipe :: b)
  = (if truthy (strip a) then [strip a] else []) ++ parse_options b.
Proof.
  intros Ha. unfold parse_options. rewrite (split_cut _ _ _ Ha).
  rewrite filter_cons. by destruct (truthy (strip a)).
Qed.

Lemma clean_option_inv (o : str) :
  clean_option o = true ->
  o <> [] /\ strip o = o /\ contains pipe o = false /\ contains newline o = false.
Proof.
  unfold clean_option. rewrite !andb_true_iff, !negb_true_iff.
  intros [[[Ht Hs%bool_decide_eq_true] Hp] Hn]. by destruct o.
Qed.

Lemma clean_label_inv (l : str) :
  clean_label l = true ->
  strip l = l /\ contains colon l = false /\ contains newline l = false.
Proof.
  unfold clean_label. rewrite !andb_true_iff, !negb_true_iff.
  by intros [[Hs%bool_decide_eq_true Hc] Hn].
Qed.

(** Options written "o1 | o2 | ..." after a blank are read back as they
    are. *)
Lemma parse_options_join opts :
  opts <> [] -> forallb clean_option opts = true ->
  forall ws, blank ws = true -> contains pipe ws = false ->
  parse_options (ws ++ join (py " | ") opts) = opts.
Proof.
  induction opts as [|o opts IH]; [done|]. intros _.
  cbn [forallb]. intros [Ho Hopts]%andb_prop ws Hws Hpipe.
  apply clean_option_inv in Ho as (Hne & Hstrip & Hp & _).
  destruct opts as [|o' opts].
  - cbn [join]. rewrite parse_options_single
      by (by rewrite contains_app, Hpipe, Hp).
    rewrite <- (app_nil_r (ws ++ o)), <- app_assoc.
    rewrite (strip_pad ws o []), Hstrip by done. by destruct o.
  - change (join (py " | ") (o :: o' :: opts))
      with (o ++ ([0x20%N] ++ pipe :: [0x20%N]) ++ join (py " | ") (o' :: opts)).
    replace (ws ++ o ++ ([0x20%N] ++ pipe :: [0x20%N]) ++ join (py " | ") (o' :: opts))
      with ((ws ++ o ++ [0x20%N]) ++ pipe :: ([0x20%N] ++ join (py " | ") (o' :: opts)))
      by (by rewrite <- !app_assoc).
    rewrite parse_options_cons by (by rewrite !contains_app, Hpipe, Hp).
    rewrite (strip_pad ws o [0x20%N]), Hstrip by done.
    rewrite IH by done. by destruct o.
Qed.

(** A line in the format assigns its options to its label. *)
Lemma parse_line_render d (entry : str * list str) :
  clean_entry entry = true ->
  parse_line d (render_line entry) = Returned (PyDict.set entry.1 entry.2 d).
Proof.
  destruct entry as [label opts]. unfold clean_entry. simpl.
  rewrite !andb_true_iff, negb_true_iff.
  intros [[(Hstrip & Hcolon & _)%clean_label_inv Hne%bool_decide_eq_false] Hopts].
  change (render_line (label, opts))
    with (label ++ colon :: ([0x20%N] ++ join (py " | ") opts)).
  rewrite (parse_line_colon d _ _ Hcolon), Hstrip.
  rewrite parse_options_join by done. by destruct opts.
Qed.

Lemma set_fresh {V} (k : str) (v : V) (acc : PyDict.dict V) :
  k ∉ PyDict.keys acc -> PyDict.set k v acc = acc ++ [(k, v)].
Proof.
  induction acc as [|[k' v'] acc IH]; simpl; [done|].
  intros [Hne Hacc]%not_elem_of_cons.
  rewrite decide_False by done. by rewrite IH.
Qed.

(** Lines in the format, with distinct labels, add their entries in order. *)
Lemma parse_lines_render d :
  forall acc, forallb clean_entry d = true ->
  NoDup (PyDict.keys (acc ++ d)) ->
  parse_lines acc (render_line <$> d) = Returned (acc ++ d).
Proof.
  induction d as [|[label opts] d IH]; intros acc Hd Hnd; simpl.
  - by rewrite app_nil_r.
  - simpl in Hd. apply andb_prop in Hd as [He Hd].
    rewrite (parse_line_render acc _ He). simpl.
    assert (label ∉ PyDict.keys acc) as Hfresh.
    { unfold PyDict.keys in *. rewrite fmap_app in Hnd.
      apply NoDup_app in Hnd as (_ & Hdisj & _). intros Hin.
      apply (Hdisj label Hin). simpl. by left. }
    rewrite (set_fresh _ _ _ Hfresh).
    rewrite IH; [by rewrite <- app_assoc|done|by rewrite <- app_assoc].
Qed.

Lemma contains_join c sep parts :
  contains c sep = false -> Forall (fun p => contains c p = false) parts ->
  contains c (join sep parts) = false.
Proof.
  intros Hsep. induction 1 as [|p parts Hp Hparts IH]; [done|].
  destruct parts as [|p' parts]; [done|].
  change (join sep (p :: p' :: parts)) with (p ++ sep ++ join sep (p' :: parts)).
  by rewrite !contains_app, Hp, Hsep, IH.
Qed.

Lemma split_join (c : N) (lines : list str) :
  lines <> [] -> Forall (fun l => contains c l = false) lines ->
  split c (join [c] lines) = lines.
Proof.
  intros Hne. induction 1 as [|l lines Hl Hlines IH]; [done|].
  destruct lines as [|l' lines].
  - by apply split_no_sep.
  - change (join [c] (l :: l' :: lines)) with (l ++ c :: join [c] (l' :: lines)).
    rewrite (split_cut _ _ _ Hl). by rewrite IH.
Qed.

Lemma render_line_no_newline (entry : str * list str) :
  clean_entry entry = true -> contains newline (render_line entry) = false.
Proof.
  destruct entry as [label opts]. unfold clean_entry, render_line. simpl.
  rewrite !andb_true_iff.
  intros [[(_ & _ & Hn)%clean_label_inv _] Hopts].
  rewrite !contains_app, Hn. simpl. apply contains_join; [done|].
  apply Forall_forall. intros o Ho. rewrite forallb_forall in Hopts.
  apply list_elem_of_In, Hopts in Ho.
  by apply clean_option_inv in Ho as (_ & _ & _ & ?).
Qed.

Lemma starts_clean_app a b :
  a <> [] -> starts_clean (a ++ b) = starts_clean a.
Proof. by destruct a. Qed.

Lemma ends_clean_app a b :
  b <> [] -> starts_clean (reverse (a ++ b)) = starts_clean (reverse b).
Proof.
  intros Hb. rewrite reverse_app. apply starts_clean_app.
  intros Hr. apply Hb. by rewrite <- (reverse_involutive b), Hr.
Qed.

(** A join of non-empty parts that end cleanly ends cleanly. *)
Lemma join_ends_clean sep parts :
  parts <> [] ->
  Forall (fun p => p <> [] /\ starts_clean (reverse p) = true) parts ->
  join sep parts <> [] /\ starts_clean (reverse (join sep parts)) = true.
Proof.
  intros Hne. induction 1 as [|p parts [Hp Hend] Hparts IH]; [done|].
  destruct parts as [|p' parts]; [done|].
  destruct IH as [Hj Hjend]; [done|].
  change (join sep (p :: p' :: parts)) with (p ++ sep ++ join sep (p' :: parts)).
  split; [by destruct p|].
  rewrite ends_clean_app by (by intros [_ ?]%app_eq_nil).
  by rewrite ends_clean_app.
Qed.

Lemma render_line_ends (entry : str * list str) :
  clean_entry entry = true ->
  render_line entry <> [] /\
  starts_clean (render_line entry) = true /\
  starts_clean (reverse (render_line entry)) = true.
Proof.
  destruct entry as [label opts]. unfold clean_entry. simpl.
  rewrite !andb_true_iff, negb_true_iff.
  intros [[(Hstrip & _)%clean_label_inv Hne%bool_decide_eq_false] Hopts].
  destruct (join_ends_clean (py " | ") opts Hne) as [Hj Hjend].
  { apply Forall_forall. intros o Ho. rewrite forallb_forall in Hopts.
    apply list_elem_of_In, Hopts, clean_option_inv in Ho
      as (? & [_ ?]%strip_fix_inv & _). done. }
  unfold render_line. cbn [fst snd]. split; [|split].
  - intros [_ [Hsep _]%app_eq_nil]%app_eq_nil. by vm_compute in Hsep.
  - destruct label as [|c label]; [reflexivity|].
    by apply strip_fix_inv in Hstrip as [? _].
  - rewrite app_assoc. by rewrite ends_clean_app.
Qed.

(** [strip] leaves a completion in the format as it is. *)
Lemma strip_render d : forallb clean_entry d = true -> strip (render d) = render d.
Proof.
  intros Hd. destruct d as [|entry d]; [done|].
  assert (Forall (fun l => l <> [] /\ starts_clean (reverse l) = true)
            (render_line <$> (entry :: d))) as Hlines.
  { apply Forall_fmap, Forall_forall. intros e He. rewrite forallb_forall in Hd.
    apply list_elem_of_In, Hd, render_line_ends in He as (? & _ & ?).
    by split. }
  destruct (join_ends_clean [newline] (render_line <$> entry :: d))
    as [_ Hend]; [by rewrite fmap_cons|done|].
  apply strip_fix; [|exact Hend].
  simpl in Hd. apply andb_prop in Hd as [(Hne & Hstart & _)%render_line_ends _].
  unfold render. rewrite fmap_cons.
  destruct d as [|entry' d]; [exact Hstart|]. rewrite fmap_cons.
  change (starts_clean
            (render_line entry ++ [newline]
               ++ join [newline] (render_line entry' :: (render_line <$> d)))
          = true).
  by rewrite starts_clean_app.
Qed.

End RenderFacts.

(** X2. A completion written in the format the system prompt asks for, one
    line "label: option | option ..." per entry of a well-formed mapping, is
    parsed back to exactly that mapping, the entries in their order. *)
Theorem parse_render (d : Options) :
  well_formed d = true -> parse_response (render d) = Returned d.
Proof.
  unfold well_formed. rewrite andb_true_iff.
  intros [Hnd%bool_decide_eq_true Hd].
  unfold parse_response. cbv zeta. rewrite (strip_render d Hd).
  destruct d as [|entry d]; [done|].
  unfold render. rewrite split_join; [by apply (parse_lines_render _ [])|done|].
  apply Forall_fmap, Forall_forall. intros e He. rewrite forallb_forall in Hd.
  by apply list_elem_of_In, Hd, render_line_no_newline in He.
Qed.

Lemma parse_render_witness :
  parse_response
    (render [(py "Professional", [py "Hello there."; py "Good day."]);
             (py "", [py "lol no"])])
  = Returned [(py "Professional", [py "Hello there."; py "Good day."]);
              (py "", [py "lol no"])].
Proof.
  apply (parse_render [(py "Professional", [py "Hello there."; py "Good day."]);
                       (py "", [py "lol no"])]).
  vm_compute. reflexivity.
Defined.

(** * Which labels the parser returns *)

Section Assigned.

Implicit Types (d : Options) (label : str) (opts lines : list str).

Lemma get_set_is_Some {V} (k k' : str) (v : V) (d : PyDict.dict V) :
  is_Some (PyDict.get k' d) -> is_Some (PyDict.get k' (PyDict.set k v d)).
Proof.
  destruct (decide (k = k')) as [->|Hne].
  - intros _. rewrite get_set_eq. eauto.
  - by rewrite get_set_ne.
Qed.

Lemma parse_line_assigns d label opts line :
  assigns label opts line ->
  parse_line d line = Returned (PyDict.set label opts d).
Proof.
  intros (tone & options_str & -> & Htone & <- & <- & Hne).
  rewrite (parse_line_colon d _ _ Htone).
  by destruct (parse_options options_str).
Qed.

Lemma parse_line_inv d line d' :
  parse_line d line = Returned d' ->
  d' = d \/ exists label opts, assigns label opts line /\ d' = PyDict.set label opts d.
Proof.
  destruct (parse_line_cases d line)
    as [->|(tone & options_str & -> & Htone & Hopts & ->)]; intros [= <-].
  - by left.
  - right. exists (strip tone), (parse_options options_str). split; [|done].
    by exists tone, options_str.
Qed.

(** An entry, once there, stays, and a line that assigns the label makes
    one. *)
Lemma parse_lines_assigned label lines :
  forall d d', parse_lines d lines = Returned d' ->
  is_Some (PyDict.get label d) \/
    Exists (fun line => exists opts, assigns label opts line) lines ->
  is_Some (PyDict.get label d').
Proof.
  induction lines as [|line lines IH]; intros d d'; simpl.
  - intros [= <-] [?|Hex]; [done|]. by apply Exists_nil in Hex.
  - destruct (parse_line d line) as [d1|e] eqn:Hd1; simpl; [|done].
    intros Hd' Hor. apply (IH _ _ Hd').
    destruct Hor as [Hsome|[[opts Hline]|Htail]%Exists_cons]; [| |by right].
    + left. apply parse_line_inv in Hd1 as [->|(l & o & _ & ->)]; [done|].
      by apply get_set_is_Some.
    + left. rewrite (parse_line_assigns d _ _ _ Hline) in Hd1.
      injection Hd1 as <-. rewrite get_set_eq. eauto.
Qed.

(** An entry holds the options of a line that assigned them. *)
Lemma parse_lines_entry label opts lines :
  forall d d', parse_lines d lines = Returned d' ->
  PyDict.get label d' = Some opts ->
  PyDict.get label d = Some opts \/ Exists (assigns label opts) lines.
Proof.
  induction lines as [|line lines IH]; intros d d'; simpl.
  - intros [= <-] ?. by left.
  - destruct (parse_line d line) as [d1|e] eqn:Hd1; simpl; [|done].
    intros Hd' Hget. destruct (IH _ _ Hd' Hget) as [Hget1|Htail];
      [|right; by apply Exists_cons_tl].
    apply parse_line_inv in Hd1 as [->|(l & o & Hline & ->)]; [by left|].
    destruct (decide (l = label)) as [->|Hne].
    + rewrite get_set_eq in Hget1. injection Hget1 as ->.
      right. by apply Exists_cons_hd.
    + rewrite get_set_ne in Hget1 by done. by left.
Qed.

End Assigned.

(** X3. The returned mapping has an entry for a label exactly when some
    line of the completion assigns that label, and the entry's options are
    those some such line assigned. *)
Theorem entry_iff_assigned (response_text label : str) :
  exists parsed_options,
    parse_response response_text = Returned parsed_options /\
    (is_Some (PyDict.get label parsed_options) <->
     Exists (fun line => exists opts, assigns label opts line)
       (split newline (strip response_text))) /\
    (forall opts,
       PyDict.get label parsed_options = Some opts ->
       Exists (assigns label opts) (split newline (strip response_text))).
Proof.
  destruct (parse_lines_total (split newline (strip response_text)) [])
    as [d Hd].
  exists d. split; [done|].
  assert (forall opts,
            PyDict.get label d = Some opts ->
            Exists (assigns label opts) (split newline (strip response_text)))
    as Hentry.
  { intros opts Hget.
    by destruct (parse_lines_entry label opts _ [] d Hd Hget). }
  split; [split|done].
  - intros [opts Hget]. apply Hentry in Hget.
    apply Exists_exists in Hget as (line & Hin & Hline).
    apply Exists_exists. eauto.
  - intros Hex. apply (parse_lines_assigned label _ [] d Hd). by right.
Qed.

(** X4. Blanks and line breaks around a completion change nothing: the
    completion with blank text before and after it parses to the same
    mapping. *)
Theorem parse_response_padding (ws1 response_text ws2 : str) :
  blank ws1 = true -> blank ws2 = true ->
  parse_response (ws1 ++ response_text ++ ws2) = parse_response response_text.
Proof.
  intros H1 H2. unfold parse_response. cbv zeta. by rewrite strip_pad.
Qed.

Lemma parse_response_padding_witness :
  parse_response ([newline; newline] ++ canned ++ py "  " ++ [newline])
  = parse_response canned.
Proof.
  apply (parse_response_padding [newline; newline] canned (py "  " ++ [newline]));
    reflexivity.
Defined.

(** * Validation of profiles *)

Section ProfileValidation.

Lemma get_here {V} (k : str) (v : V) (d : PyDict.dict V) :
  PyDict.get k ((k, v) :: d) = Some v.
Proof. simpl. by rewrite decide_True. Qed.

Lemma get_skip {V} (k k' : str) (v : V) (d : PyDict.dict V) :
  k' <> k -> PyDict.get k ((k', v) :: d) = PyDict.get k d.
Proof. intros Hne. simpl. by rewrite decide_False. Qed.

Lemma vbind_inv {A B} (v : Validated A) (k : A -> Validated B) (b : B) :
  vbind v k = Valid b -> exists a, v = Valid a /\ k a = Valid b.
Proof. destruct v as [a|]; simpl; [eauto|done]. Qed.

Lemma with_default_absent {A} (members : list (str * JSON)) (key : str)
    (field : JSON -> Validated A) (default a : A) :
  with_default members key field default = Valid a ->
  PyDict.get key members = None -> a = default.
Proof. unfold with_default. intros H Hget. rewrite Hget in H. congruence. Qed.

Lemma validate_trait_dump (l : TraitLevel) :
  validate_trait (JString (trait_str l)) = Valid l.
Proof. by destruct l. Qed.

Lemma validate_intensity_dump (i : Intensity) :
  validate_intensity (JString (intensity_str i)) = Valid i.
Proof. by destruct i. Qed.

Lemma validate_formality_dump (f : Formality) :
  validate_literal all_formalities formality_str (JString (formality_str f))
  = Valid f.
Proof. by destruct f. Qed.

Lemma validate_conciseness_dump (c : Conciseness) :
  validate_literal all_concisenesses conciseness_str
    (JString (conciseness_str c)) = Valid c.
Proof. by destruct c. Qed.

Lemma validate_strs_dump (l : list str) :
  validate_items validate_str (JString <$> l) = Valid l.
Proof.
  induction l as [|s l IH]; [done|]. rewrite fmap_cons.
  cbn [validate_items validate_str vbind]. by rewrite IH.
Qed.

End ProfileValidation.

Ltac get_key :=
  repeat first
    [ rewrite get_here
    | rewrite get_skip by (vm_compute; discriminate) ].

Lemma validate_dump_Personality (p : Personality) :
  validate_Personality (dump_Personality p) = Valid p.
Proof.
  destruct p as [o c e a n].
  unfold validate_Personality, dump_Personality, with_default. cbn [openness
    conscientiousness extraversion agreeableness neuroticism].
  get_key. by rewrite !validate_trait_dump.
Qed.

Lemma validate_dump_CommunicationStyle (c : CommunicationStyle) :
  validate_CommunicationStyle (dump_CommunicationStyle c) = Valid c.
Proof.
  destruct c as [f c h e fl].
  unfold validate_CommunicationStyle, dump_CommunicationStyle, with_default.
  cbn [formality_preference conciseness_preference humor_level empathy_level
       flirty_level].
  get_key.
  by rewrite validate_formality_dump, validate_conciseness_dump,
    !validate_intensity_dump, validate_trait_dump.
Qed.

(** X5. A profile dumped by [model_dump] passes validation and validates
    to itself. *)
Theorem validate_model_dump (profile : UserProfile) :
  validate_UserProfile (model_dump profile) = Valid profile.
Proof.
  destruct profile as [i p c v].
  unfold validate_UserProfile, model_dump, required, with_default.
  cbn [id personality communication_style values_boundaries].
  get_key. cbn [validate_str vbind validate_list].
  rewrite validate_dump_Personality, validate_dump_CommunicationStyle.
  cbn [vbind]. by rewrite validate_strs_dump.
Qed.

Lemma validate_Personality_defaults (members : list (str * JSON))
    (p : Personality) :
  validate_Personality (JObject members) = Valid p ->
  (PyDict.get (py "openness") members = None -> openness p = Trait_medium) /\
  (PyDict.get (py "conscientiousness") members = None ->
   conscientiousness p = Trait_medium) /\
  (PyDict.get (py "extraversion") members = None ->
   extraversion p = Trait_medium) /\
  (PyDict.get (py "agreeableness") members = None ->
   agreeableness p = Trait_medium) /\
  (PyDict.get (py "neuroticism") members = None -> neuroticism p = Trait_medium).
Proof.
  unfold validate_Personality.
  intros (o & Ho & (c & Hc & (e & He & (a & Ha & (n & Hn & [= <-])%vbind_inv)
    %vbind_inv)%vbind_inv)%vbind_inv)%vbind_inv.
  cbn [openness conscientiousness extraversion agreeableness neuroticism].
  repeat split; by eapply with_default_absent.
Qed.

Lemma validate_CommunicationStyle_defaults (members : list (str * JSON))
    (c : CommunicationStyle) :
  validate_CommunicationStyle (JObject members) = Valid c ->
  (PyDict.get (py "formality_preference") members = None ->
   formality_preference c = Formality_casual) /\
  (PyDict.get (py "conciseness_preference") members = None ->
   conciseness_preference c = Conciseness_concise) /\
  (PyDict.get (py "humor_level") members = None ->
   humor_level c = Intensity_medium) /\
  (PyDict.get (py "empathy_level") members = None ->
   empathy_level c = Trait_medium) /\
  (PyDict.get (py "flirty_level") members = None ->
   flirty_level c = Intensity_none).
Proof.
  unfold validate_CommunicationStyle.
  intros (f & Hf & (k & Hk & (h & Hh & (e & He & (fl & Hfl & [= <-])%vbind_inv)
    %vbind_inv)%vbind_inv)%vbind_inv)%vbind_inv.
  cbn [formality_preference conciseness_preference humor_level empathy_level
       flirty_level].
  repeat split; by eapply with_default_absent.
Qed.

(** What validation of a profile body gives, field by field. *)
Lemma validate_UserProfile_inv (members : list (str * JSON))
    (profile : UserProfile) :
  validate_UserProfile (JObject members) = Valid profile ->
  required members (py "id") validate_str = Valid (id profile) /\
  required members (py "personality") validate_Personality
    = Valid (personality profile) /\
  required members (py "communication_style") validate_CommunicationStyle
    = Valid (communication_style profile) /\
  with_default members (py "values_boundaries") (validate_list validate_str) []
    = Valid (values_boundaries profile).
Proof.
  unfold validate_UserProfile.
  by intros (i & Hi & (p & Hp & (c & Hc & (v & Hv & [= <-])%vbind_inv)
    %vbind_inv)%vbind_inv)%vbind_inv.
Qed.

Lemma required_inv {A} (members : list (str * JSON)) (key : str)
    (field : JSON -> Validated A) (a : A) :
  required members key field = Valid a ->
  exists j, PyDict.get key members = Some j /\ field j = Valid a.
Proof.
  unfold required. destruct (PyDict.get key members) as [j|]; [eauto|done].
Qed.

(** X6. A field left out of an accepted profile body takes the default of
    its declaration: "medium" for the five personality traits, "casual",
    "concise", "medium", "medium" and "none" for the communication style,
    and the empty list for the boundary statements. *)
Theorem omitted_fields_take_defaults (members : list (str * JSON))
    (profile : UserProfile) :
  validate_UserProfile (JObject members) = Valid profile ->
  exists pm cm,
    PyDict.get (py "personality") members = Some (JObject pm) /\
    PyDict.get (py "communication_style") members = Some (JObject cm) /\
    (PyDict.get (py "openness") pm = None ->
     openness (personality profile) = Trait_medium) /\
    (PyDict.get (py "conscientiousness") pm = None ->
     conscientiousness (personality profile) = Trait_medium) /\
    (PyDict.get (py "extraversion") pm = None ->
     extraversion (personality profile) = Trait_medium) /\
    (PyDict.get (py "agreeableness") pm = None ->
     agreeableness (personality profile) = Trait_medium) /\
    (PyDict.get (py "neuroticism") pm = None ->
     neuroticism (personality profile) = Trait_medium) /\
    (PyDict.get (py "formality_preference") cm = None ->
     formality_preference (communication_style profile) = Formality_casual) /\
    (PyDict.get (py "conciseness_preference") cm = None ->
     conciseness_preference (communication_style profile) = Conciseness_concise) /\
    (PyDict.get (py "humor_level") cm = None ->
     humor_level (communication_style profile) = Intensity_medium) /\
    (PyDict.get (py "empathy_level") cm = None ->
     empathy_level (communication_style profile) = Trait_medium) /\
    (PyDict.get (py "flirty_level") cm = None ->
     flirty_level (communication_style profile) = Intensity_none) /\
    (PyDict.get (py "values_boundaries") members = None ->
     values_boundaries profile = []).
Proof.
  intros (_ & (jp & Hjp & Hp)%required_inv & (jc & Hjc & Hc)%required_inv & Hv)
    %validate_UserProfile_inv.
  destruct jp as [| | | | |pm]; try done.
  destruct jc as [| | | | |cm]; try done.
  exists pm, cm. split; [done|]. split; [done|].
  apply validate_Personality_defaults in Hp as (? & ? & ? & ? & ?).
  apply validate_CommunicationStyle_defaults in Hc as (? & ? & ? & ? & ?).
  repeat (split; [done|]). by apply (with_default_absent _ _ _ _ _ Hv).
Qed.

Lemma omitted_fields_take_defaults_witness :
  validate_UserProfile (JObject (minimal_members (py "bob")))
    = Valid (default_profile (py "bob")) /\
  humor_level (communication_style (default_profile (py "bob")))
    = Intensity_medium.
Proof.
  split; [reflexivity|].
  destruct (omitted_fields_take_defaults (minimal_members (py "bob"))
              (default_profile (py "bob")) eq_refl)
    as (pm & cm & _ & Hcm & _ & _ & _ & _ & _ & _ & _ & Hhumor & _).
  apply Hhumor. injection Hcm as <-. reflexivity.
Defined.

(** X7. Posting an accepted profile body that has no "values_boundaries"
    key leaves, under the profile's id, a profile without any boundary
    statement, whatever the store held under that id before. *)
Theorem resubmission_clears_boundaries (members : list (str * JSON))
    (profile : UserProfile) (w : World) :
  validate_UserProfile (JObject members) = Valid profile ->
  PyDict.get (py "values_boundaries") members = None ->
  let w' := snd (post_user_profile (JObject members) w) in
  get_user_profile (id profile) w' = (Ok profile, w') /\
  values_boundaries profile = [].
Proof.
  intros Hvalid Hnone w'. split.
  - subst w'. unfold post_user_profile. rewrite Hvalid.
    unfold get_user_profile. simpl. by rewrite lookup_insert_eq.
  - apply validate_UserProfile_inv in Hvalid as (_ & _ & _ & Hv).
    by apply (with_default_absent _ _ _ _ _ Hv).
Qed.

Lemma resubmission_clears_boundaries_witness :
  fst (get_user_profile (py "alice")
         (snd (post_user_profile (JObject (minimal_members (py "alice")))
                 (snd (set_user_profile alice startup)))))
  = Ok (default_profile (py "alice")).
Proof.
  destruct (resubmission_clears_boundaries (minimal_members (py "alice"))
              (default_profile (py "alice"))
              (snd (set_user_profile alice startup)) eq_refl eq_refl)
    as [Hget _].
  exact (f_equal fst Hget).
Defined.

(** X8. A profile body that is not an object, or that lacks one of "id",
    "personality" and "communication_style", fails validation: the handler
    is not reached and the state is left as it was. *)
Theorem profile_body_required (body : JSON) (w : World) :
  (forall members,
     body = JObject members ->
     PyDict.get (py "id") members = None \/
     PyDict.get (py "personality") members = None \/
     PyDict.get (py "communication_style") members = None) ->
  post_user_profile body w = (Rejected, w).
Proof.
  intros Hmissing. unfold post_user_profile.
  destruct (validate_UserProfile body) as [profile|] eqn:Hvalid; [|done].
  destruct body as [| | | | |members]; try done.
  apply validate_UserProfile_inv in Hvalid
    as ((? & Hi & _)%required_inv & (? & Hp & _)%required_inv
        & (? & Hc & _)%required_inv & _).
  destruct (Hmissing members eq_refl) as [H|[H|H]]; congruence.
Qed.

Lemma profile_body_required_witness :
  post_user_profile
    (JObject [(py "id", JString (py "bob")); (py "personality", JObject [])])
    startup
  = (Rejected, startup).
Proof.
  apply (profile_body_required
           (JObject [(py "id", JString (py "bob")); (py "personality", JObject [])])
           startup).
  intros members [= <-]. right. right. reflexivity.
Defined.

(** * The store and the provider over a run of requests *)

Section TraceFacts.

Variable json_dumps : UserProfile -> str.
Variable chain : list ChainInput -> ChainInput -> Outcome str.

Implicit Types (w : World) (request : GenerateResponseRequest) (uid : str)
  (calls : list Call).

Lemma serve_all_cons (c : Call) calls w :
  serve_all json_dumps chain (c :: calls) w
  = serve_all json_dumps chain calls (serve json_dumps chain w c).
Proof. done. Qed.

Lemma serve_store (c : Call) w uid :
  user_profiles_db (serve json_dumps chain w c) !! uid
  = match c with
    | CallSet profile =>
        if decide (id profile = uid) then Some profile
        else user_profiles_db w !! uid
    | _ => user_profiles_db w !! uid
    end.
Proof.
  destruct c as [profile|uid'|request]; simpl.
  - destruct (decide (id profile = uid)) as [<-|Hne].
    + apply lookup_insert_eq.
    + by apply lookup_insert_ne.
  - unfold get_user_profile. by destruct (user_profiles_db w !! uid').
  - by rewrite generate_keeps_store.
Qed.

(** The store after a run: each id holds the last profile set under it. *)
Lemma serve_all_store calls :
  forall w uid,
    user_profiles_db (serve_all json_dumps chain calls w) !! uid
    = match last_set uid calls with
      | Some profile => Some profile
      | None => user_profiles_db w !! uid
      end.
Proof.
  induction calls as [|c calls IH]; intros w uid; [done|].
  rewrite serve_all_cons, IH. simpl.
  destruct (last_set uid calls); [done|]. rewrite serve_store.
  destruct c as [profile| |]; [|done..]. by destruct (decide (id profile = uid)).
Qed.

Lemma last_set_id uid calls (profile : UserProfile) :
  last_set uid calls = Some profile -> id profile = uid.
Proof.
  induction calls as [|c calls IH]; simpl; [done|].
  destruct (last_set uid calls); [by intros [= <-]; apply IH|].
  destruct c as [p| |]; [|done..].
  destruct (decide (id p = uid)); [by intros [= <-]|done].
Qed.

(** X9. After any run of requests since startup, [get_user_profile uid]
    returns the profile of the last [set_user_profile] under [uid] in the
    run, and answers 404 when there is none: the last write wins and nothing
    is ever removed. *)
Theorem get_returns_last_set uid calls :
  fst (get_user_profile uid (serve_all json_dumps chain calls startup))
  = match last_set uid calls with
    | Some profile => Ok profile
    | None => HTTPException 404 not_found
    end.
Proof.
  unfold get_user_profile. rewrite serve_all_store.
  by destruct (last_set uid calls).
Qed.

(** X10. After any run of requests since startup, every profile in the
    store is stored under its own id. *)
Theorem stored_under_own_id calls uid (profile : UserProfile) :
  user_profiles_db (serve_all json_dumps chain calls startup) !! uid
    = Some profile ->
  id profile = uid.
Proof.
  rewrite serve_all_store. destruct (last_set uid calls) as [p|] eqn:Hlast.
  - intros [= <-]. by apply (last_set_id uid calls).
  - unfold startup. simpl. by rewrite lookup_empty.
Qed.

Lemma serve_log (c : Call) w :
  exists new,
    chain_calls (serve json_dumps chain w c) = chain_calls w ++ new /\
    length new <= length (filter (fun c => is_generate c = true) [c]).
Proof.
  destruct c as [profile|uid|request]; simpl.
  - exists []. by rewrite app_nil_r.
  - exists []. unfold get_user_profile.
    destruct (user_profiles_db w !! uid); by rewrite app_nil_r.
  - unfold generate_responses_endpoint.
    destruct (user_profiles_db w !! user_id request) as [profile|].
    + exists [chain_input json_dumps profile request]. unfold ainvoke.
      by destruct (obind _ _).
    + exists []. simpl. rewrite app_nil_r. split; [done|lia].
Qed.

(** X11. Over any run of requests the record of the chain's invocations
    only grows at its end, and by no more than one invocation per
    [generate_responses] request: [set_user_profile] and [get_user_profile]
    never call the provider. *)
Theorem provider_called_only_by_generate calls w :
  exists new,
    chain_calls (serve_all json_dumps chain calls w) = chain_calls w ++ new /\
    length new <= length (filter (fun c => is_generate c = true) calls).
Proof.
  revert w. induction calls as [|c calls IH]; intros w.
  - exists []. by rewrite app_nil_r.
  - rewrite serve_all_cons.
    destruct (IH (serve json_dumps chain w c)) as (new2 & -> & Hlen2).
    destruct (serve_log c w) as (new1 & -> & Hlen1).
    exists (new1 ++ new2). split; [by rewrite app_assoc|].
    rewrite length_app. change (c :: calls) with ([c] ++ calls).
    rewrite filter_app, length_app. lia.
Qed.

(** X12. A [generate_responses] request for a user whose profile was just
    set invokes the chain once, with the input built from that profile and
    the request, whatever the store held under the id before. *)
Theorem generate_uses_latest_profile (profile : UserProfile) request w :
  user_id request = id profile ->
  chain_calls (snd (generate_responses_endpoint json_dumps chain request
                      (snd (set_user_profile profile w))))
  = chain_calls w ++ [chain_input json_dumps profile request].
Proof.
  intros Hid. unfold generate_responses_endpoint. simpl.
  rewrite Hid, lookup_insert_eq. unfold ainvoke. simpl.
  by destruct (obind _ _).
Qed.

(** X13. [generate_responses_endpoint] answers 500 only when the provider
    call raised: the user id is then in the store, the chain raised on the
    input built from the stored profile, and the detail is
    "Error generating responses: " followed by the exception's text. The
    parsing step never causes a 500. *)
Theorem server_error_only_from_provider request w (detail : str) :
  fst (generate_responses_endpoint json_dumps chain request w)
    = HTTPException 500 detail ->
  exists (user_profile : UserProfile) (e : PyException),
    user_profiles_db w !! user_id request = Some user_profile /\
    chain (chain_calls w) (chain_input json_dumps user_profile request)
      = Raised e /\
    detail = py "Error generating responses: " ++ exc_text e.
Proof.
  unfold generate_responses_endpoint.
  destruct (user_profiles_db w !! user_id request) as [profile|]; [|done].
  unfold ainvoke.
  destruct (chain (chain_calls w) (chain_input json_dumps profile request))
    as [response_text|e] eqn:Hchain; simpl.
  - destruct (parse_lines_total (split newline (strip response_text)) [])
      as [d Hd].
    unfold parse_response. by rewrite Hd.
  - intros [= <-]. by exists profile, e.
Qed.

(** X14. With the user id in the store and the provider returning a
    completion, [generate_responses_endpoint] answers with the parsed
    options, which are well formed, and the store is what it was. *)
Theorem completion_gives_options request w (user_profile : UserProfile)
    (response_text : str) :
  user_profiles_db w !! user_id request = Some user_profile ->
  chain (chain_calls w) (chain_input json_dumps user_profile request)
    = Returned response_text ->
  exists parsed_options,
    generate_responses_endpoint json_dumps chain request w
    = (Ok {| options := parsed_options |},
       {| user_profiles_db := user_profiles_db w;
          chain_calls :=
            chain_calls w ++ [chain_input json_dumps user_profile request] |}) /\
    parse_response response_text = Returned parsed_options /\
    well_formed parsed_options = true.
Proof.
  intros Hprofile Hchain.
  destruct (parse_lines_total (split newline (strip response_text)) [])
    as [d Hd].
  exists d. split; [|split; [done|]].
  - unfold generate_responses_endpoint, ainvoke. rewrite Hprofile, Hchain.
    simpl. unfold parse_response. by rewrite Hd.
  - unfold well_formed. rewrite bool_decide_eq_true_2.
    + apply (parse_lines_clean (split newline (strip response_text))
               (split_fields newline newline (strip response_text)
                  (or_introl eq_refl)) [] d eq_refl Hd).
    + eapply parse_lines_NoDup; [|exact Hd]. constructor.
Qed.

(** X15. A request body whose "desired_tones" array has an item that is
    not the string of one of the ten tones fails validation: the handler is
    not reached and the state is left as it was. *)
Theorem unknown_tone_rejected (members : list (str * JSON))
    (items : list JSON) (j : JSON) w :
  PyDict.get (py "desired_tones") members = Some (JArray items) ->
  j ∈ items ->
  (forall t : Tone, j <> JString (tone_str t)) ->
  post_generate_responses json_dumps chain (JObject members) w
  = (Rejected, w).
Proof.
  intros Hget Hin Hunknown. unfold post_generate_responses.
  destruct (validate_GenerateResponseRequest (JObject members))
    as [request|] eqn:Hvalid; [|done].
  apply validate_desired_tones in Hvalid as (members' & [= <-] & Hget').
  rewrite Hget in Hget'. injection Hget' as ->.
  apply list_elem_of_fmap in Hin as (t & -> & _). by destruct (Hunknown t).
Qed.

End TraceFacts.

Lemma stored_under_own_id_witness : id alice_again = py "alice".
Proof.
  apply (stored_under_own_id dumps_id canned_chain
           [CallSet alice; CallGenerate (ask (py "alice")); CallSet alice_again]
           (py "alice") alice_again).
  vm_compute. reflexivity.
Defined.

Lemma generate_uses_latest_profile_witness :
  chain_calls
    (snd (generate_responses_endpoint dumps_id canned_chain (ask (py "alice"))
            (snd (set_user_profile alice_again
                    (snd (set_user_profile alice startup))))))
  = [chain_input dumps_id alice_again (ask (py "alice"))].
Proof.
  apply (generate_uses_latest_profile dumps_id canned_chain alice_again
           (ask (py "alice")) (snd (set_user_profile alice startup))).
  reflexivity.
Defined.

Lemma server_error_only_from_provider_witness :
  exists (user_profile : UserProfile) (e : PyException),
    user_profiles_db (snd (set_user_profile alice startup)) !! py "alice"
      = Some user_profile /\
    failing_chain [] (chain_input dumps_id user_profile (ask (py "alice")))
      = Raised e /\
    py "Error generating responses: Request timed out."
      = py "Error generating responses: " ++ exc_text e.
Proof.
  apply (server_error_only_from_provider dumps_id failing_chain
           (ask (py "alice")) (snd (set_user_profile alice startup))
           (py "Error generating responses: Request timed out.")).
  vm_compute. reflexivity.
Defined.

Lemma completion_gives_options_witness :
  exists parsed_options,
    generate_responses_endpoint dumps_id canned_chain (ask (py "alice"))
      (snd (set_user_profile alice startup))
    = (Ok {| options := parsed_options |},
       {| user_profiles_db := user_profiles_db (snd (set_user_profile alice startup));
          chain_calls := [] ++ [chain_input dumps_id alice (ask (py "alice"))] |}) /\
    parse_response canned = Returned parsed_options /\
    well_formed parsed_options = true.
Proof.
  apply (completion_gives_options dumps_id canned_chain (ask (py "alice"))
           (snd (set_user_profile alice startup)) alice canned).
  - apply lookup_insert_eq.
  - reflexivity.
Defined.

Lemma unknown_tone_rejected_witness :
  post_generate_responses dumps_id canned_chain
    (body_with_tones (py "alice") (py "Lunch tomorrow?")
       [JString (py "funny"); JString (py "sarcastic")])
    startup
  = (Rejected, startup).
Proof.
  apply (unknown_tone_rejected dumps_id canned_chain _
           [JString (py "funny"); JString (py "sarcastic")]
           (JString (py "sarcastic")) startup).
  - reflexivity.
  - apply list_elem_of_further, list_elem_of_here.
  - intros t. destruct t; vm_compute; discriminate.
Defined.

(** X16. Setting the same profile twice is setting it once, and setting
    two profiles of different ids gives the same state in either order. *)
Theorem set_user_profile_composes (p1 p2 : UserProfile) (w : World) :
  snd (set_user_profile p1 (snd (set_user_profile p1 w)))
    = snd (set_user_profile p1 w) /\
  (id p1 <> id p2 ->
   snd (set_user_profile p1 (snd (set_user_profile p2 w)))
   = snd (set_user_profile p2 (snd (set_user_profile p1 w)))).
Proof.
  unfold set_user_profile. simpl. split.
  - by rewrite insert_insert_eq.
  - intros Hne. f_equal. by apply insert_insert_ne.
Qed.

Lemma set_user_profile_composes_witness :
  snd (set_user_profile alice
         (snd (set_user_profile (default_profile (py "bob")) startup)))
  = snd (set_user_profile (default_profile (py "bob"))
           (snd (set_user_profile alice startup))).
Proof.
  apply (proj2 (set_user_profile_composes alice (default_profile (py "bob"))
                  startup)).
  vm_compute. discriminate.
Defined.

(** * Completions without labelled lines, and the fields of a request *)

Lemma parse_lines_no_colon (lines : list str) :
  Forall (fun line => contains colon line = false) lines ->
  forall d, parse_lines d lines = Returned d.
Proof.
  induction 1 as [|line lines Hline _ IH]; intros d; simpl; [done|].
  rewrite (parse_line_no_colon d line Hline). simpl. apply IH.
Qed.

(** X18. A completion without any colon, in particular an empty or blank
    one, parses to the empty mapping. *)
Theorem no_colon_no_options (response_text : str) :
  contains colon response_text = false ->
  parse_response response_text = Returned [].
Proof.
  intros Hcolon. unfold parse_response. cbv zeta.
  apply parse_lines_no_colon, split_fields. right.
  by apply contains_strip.
Qed.

Lemma no_colon_no_options_witness :
  parse_response (py "I cannot help with that." ++ [newline] ++ py "Sorry!")
  = Returned [].
Proof.
  apply (no_colon_no_options
           (py "I cannot help with that." ++ [newline] ++ py "Sorry!")).
  reflexivity.
Defined.

Lemma validate_str_inv (j : JSON) (s : str) :
  validate_str j = Valid s -> j = JString s.
Proof. destruct j; simpl; congruence. Qed.

(** X19. An accepted request carries the body's own values: "user_id" and
    "incoming_message" are strings of the body, taken as they are, and
    "conversation_context_type" is the string of the request's context when
    the body has the key and "casual" when it has not. *)
Theorem request_fields_from_body (members : list (str * JSON))
    (request : GenerateResponseRequest) :
  validate_GenerateResponseRequest (JObject members) = Valid request ->
  PyDict.get (py "user_id") members = Some (JString (user_id request)) /\
  PyDict.get (py "incoming_message") members
    = Some (JString (incoming_message request)) /\
  match PyDict.get (py "conversation_context_type") members with
  | Some j => j = JString (context_str (conversation_context_type request))
  | None => conversation_context_type request = Ctx_casual
  end.
Proof.
  unfold validate_GenerateResponseRequest.
  intros (uid & (j1 & Hj1 & ->%validate_str_inv)%required_inv
          & (msg & (j2 & Hj2 & ->%validate_str_inv)%required_inv
             & (ctx & Hctx & (tones & _ & [= <-])%vbind_inv)%vbind_inv)
            %vbind_inv)%vbind_inv.
  cbn [user_id incoming_message conversation_context_type].
  split; [done|]. split; [done|]. unfold with_default in Hctx.
  destruct (PyDict.get (py "conversation_context_type") members) as [j|].
  - by apply validate_literal_inv in Hctx.
  - by injection Hctx as <-.
Qed.

Lemma request_fields_from_body_witness :
  PyDict.get (py "conversation_context_type")
    [(py "user_id", JString (py "alice"));
     (py "incoming_message", JString (py "Lunch tomorrow?"));
     (py "desired_tones", JArray [JString (py "funny"); JString (py "direct")])]
  = None /\
  conversation_context_type (ask (py "alice")) = Ctx_casual.
Proof.
  split; [reflexivity|].
  destruct (request_fields_from_body
              [(py "user_id", JString (py "alice"));
               (py "incoming_message", JString (py "Lunch tomorrow?"));
               (py "desired_tones",
                JArray [JString (py "funny"); JString (py "direct")])]
              (ask (py "alice")) eq_refl) as (_ & _ & Hctx).
  exact Hctx.
Defined.

(** * Requests with an empty list of tones *)

Lemma validate_context_dump (c : ContextType) :
  validate_literal all_contexts context_str (JString (context_str c)) = Valid c.
Proof. by destruct c. Qed.

Section RouteFacts.

Variable json_dumps : UserProfile -> str.
Variable chain : list ChainInput -> ChainInput -> Outcome str.

(** C9, as the code has it. The schema puts no lower bound on the length of
    [desired_tones]. An accepted request's [desired_tones] is the body's
    "desired_tones" array, item for item, each the string of one of the ten
    tones, and it may be empty: an object body whose "desired_tones" is the
    empty array is accepted, with an empty [desired_tones], exactly when its
    "user_id" and "incoming_message" are strings and its
    "conversation_context_type" is absent, which gives "casual", or the
    string of one of the six contexts. An accepted body is handed to the
    handler. A body that is not an object with a "desired_tones" array fails
    validation and the handler is not reached. *)
Theorem desired_tones_any_length :
  (forall body request,
     validate_GenerateResponseRequest body = Valid request ->
     exists members,
       body = JObject members /\
       PyDict.get (py "desired_tones") members
         = Some (JArray ((fun t => JString (tone_str t)) <$> desired_tones request))) /\
  (forall (members : list (str * JSON)) (request : GenerateResponseRequest),
     PyDict.get (py "desired_tones") members = Some (JArray []) ->
     (validate_GenerateResponseRequest (JObject members) = Valid request <->
      PyDict.get (py "user_id") members = Some (JString (user_id request)) /\
      PyDict.get (py "incoming_message") members
        = Some (JString (incoming_message request)) /\
      match PyDict.get (py "conversation_context_type") members with
      | Some j => j = JString (context_str (conversation_context_type request))
      | None => conversation_context_type request = Ctx_casual
      end /\
      desired_tones request = [])) /\
  (forall (body : JSON) (request : GenerateResponseRequest) (w : World),
     validate_GenerateResponseRequest body = Valid request ->
     post_generate_responses json_dumps chain body w
     = let '(r, w') := generate_responses_endpoint json_dumps chain request w
       in (Handled r, w')) /\
  (forall (body : JSON) (w : World),
     (forall members items,
        body = JObject members ->
        PyDict.get (py "desired_tones") members <> Some (JArray items)) ->
     post_generate_responses json_dumps chain body w = (Rejected, w)).
Proof.
  split; [exact validate_desired_tones|]. split; [|split].
  - intros members request Htones. split.
    + intros Hvalid.
      destruct (validate_desired_tones _ _ Hvalid) as (members' & [= <-] & Hget).
      rewrite Htones in Hget. injection Hget as Hnil.
      symmetry in Hnil. apply fmap_nil_inv in Hnil.
      revert Hvalid. unfold validate_GenerateResponseRequest.
      intros (uid & (j1 & Hj1 & ->%validate_str_inv)%required_inv
              & (msg & (j2 & Hj2 & ->%validate_str_inv)%required_inv
                 & (ctx & Hctx & (tones & _ & [= <-])%vbind_inv)%vbind_inv)
                %vbind_inv)%vbind_inv.
      cbn [user_id incoming_message conversation_context_type desired_tones] in *.
      split; [done|]. split; [done|]. split; [|done].
      unfold with_default in Hctx.
      destruct (PyDict.get (py "conversation_context_type") members) as [j|].
      * by apply validate_literal_inv in Hctx.
      * by injection Hctx as <-.
    + destruct request as [uid msg ctx tones].
      cbn [user_id incoming_message conversation_context_type desired_tones].
      intros (Huid & Hmsg & Hctx & ->).
      unfold validate_GenerateResponseRequest, required, with_default.
      rewrite Huid, Hmsg, Htones. cbn [validate_str vbind].
      destruct (PyDict.get (py "conversation_context_type") members) as [j|].
      * subst j. by rewrite validate_context_dump.
      * by subst ctx.
  - intros body request w Hvalid. unfold post_generate_responses.
    by rewrite Hvalid.
  - intros body w Hnone. unfold post_generate_responses.
    destruct (validate_GenerateResponseRequest body) as [request|] eqn:Hvalid;
      [|done].
    apply validate_desired_tones in Hvalid as (members & -> & Hget).
    by destruct (Hnone members _ eq_refl Hget).
Qed.

End RouteFacts.

Lemma desired_tones_any_length_witness :
  validate_GenerateResponseRequest
    (JObject [(py "user_id", JString (py "alice"));
              (py "incoming_message", JString (py "Lunch tomorrow?"));
              (py "conversation_context_type", JString (py "dating"));
              (py "sender_info", JString (py "My boss"));
              (py "desired_tones", JArray [])])
  = Valid {| user_id := py "alice"; incoming_message := py "Lunch tomorrow?";
             conversation_context_type := Ctx_dating; desired_tones := [] |}.
Proof.
  apply (proj1 (proj2 (desired_tones_any_length dumps_id canned_chain))
           [(py "user_id", JString (py "alice"));
            (py "incoming_message", JString (py "Lunch tomorrow?"));
            (py "conversation_context_type", JString (py "dating"));
            (py "sender_info", JString (py "My boss"));
            (py "desired_tones", JArray [])]
           {| user_id := py "alice"; incoming_message := py "Lunch tomorrow?";
              conversation_context_type := Ctx_dating; desired_tones := [] |}
           eq_refl).
  repeat split; reflexivity.
Defined.
